(** * BMP280 barometer driver (baseflight [drv_bmp280.c])

    A shallow embedding of the driver: the file's statics become a record
    threaded through every function, the I2C bus is an oracle for what the
    device answers together with a log of the transactions, C arithmetic in
    [float] is IEEE-754 binary32 (round to nearest even, every operation
    rounded to binary32, as on the Cortex-M target), and what C leaves
    undefined (a float-to-int conversion out of range, signed overflow, a
    floating division by zero, a store through a null pointer) is a fault
    of an error monad. *)

From Stdlib Require Import ZArith List Bool Lia QArith Qabs.
From Stdlib Require Import SpecFloat.
From Stdlib.Strings Require Byte.
From stdpp Require Import base option gmap.

Local Open Scope Z_scope.

(** ** Machine integers *)

(** [uint32_t] arithmetic wraps modulo 2^32. *)
Definition wrap32 (z : Z) : Z := z mod 2 ^ 32.

(** [(int32_t)] of a [uint32_t] value: two's complement reinterpretation. *)
Definition to_int32 (z : Z) : Z :=
  if wrap32 z <? 2 ^ 31 then wrap32 z else wrap32 z - 2 ^ 32.

Definition in_int32 (z : Z) : bool := (- 2 ^ 31 <=? z) && (z <? 2 ^ 31).

(** A [uint8_t] read from the bus, as a number. *)
Definition u8 (b : Byte.byte) : Z := Z.of_N (Byte.to_N b).

(** Two bytes of the calibration block, least significant first. *)
Definition u16_le (lo hi : Byte.byte) : Z := Z.lor (u8 lo) (Z.shiftl (u8 hi) 8).

Definition s16_le (lo hi : Byte.byte) : Z :=
  let z := u16_le lo hi in if z <? 2 ^ 15 then z else z - 2 ^ 16.

(** ** Faults and the error monad *)

Inductive fault : Type :=
  | DivByZero        (* floating division with a zero divisor *)
  | CastOutOfRange   (* (int32_t) of a float that does not fit, or of NaN *)
  | SignedOverflow   (* int32_t multiplication out of range *)
  | NullDeref.       (* store through a null pointer *)

Inductive result (A : Type) : Type :=
  | Ok (a : A)
  | Fault (f : fault).
Arguments Ok {A} a.
Arguments Fault {A} f.

Definition ret {A : Type} (a : A) : result A := Ok a.

Definition bind {A B : Type} (m : result A) (k : A -> result B) : result B :=
  match m with
  | Ok a => k a
  | Fault f => Fault f
  end.

Notation "x <- m ;; k" := (bind m (fun x => k))
  (at level 62, m at next level, right associativity).

(** ** IEEE-754 binary32 *)

Abbreviation float32 := spec_float.

Definition prec32 : Z := 24.
Definition emax32 : Z := 128.

Definition f32_add : float32 -> float32 -> float32 := SFadd prec32 emax32.
Definition f32_sub : float32 -> float32 -> float32 := SFsub prec32 emax32.
Definition f32_mul : float32 -> float32 -> float32 := SFmul prec32 emax32.
Definition f32_div : float32 -> float32 -> float32 := SFdiv prec32 emax32.
Definition f32_eqb : float32 -> float32 -> bool := SFeqb.

(** [(float)z] for an integer [z], and the literal [z.0f]. *)
Definition f32_of_Z (z : Z) : float32 := binary_normalize prec32 emax32 z 0 false.

Definition f32_zero : float32 := S754_zero false.

(** The integer part of a float, rounded toward zero; nothing for NaN and
    the infinities. *)
Definition f32_trunc (x : float32) : option Z :=
  match x with
  | S754_zero _ => Some 0
  | S754_finite s m e => Some (cond_Zopp s (Z.shiftl (Zpos m) e))
  | S754_infinity _ | S754_nan => None
  end.

(** [(int32_t)x] for a float [x]. *)
Definition int32_of_f32 (x : float32) : result Z :=
  match f32_trunc x with
  | Some z => if in_int32 z then Ok z else Fault CastOutOfRange
  | None => Fault CastOutOfRange
  end.

(** [a * b] on [int32_t]. *)
Definition mul_int32 (a b : Z) : result Z :=
  if in_int32 (a * b) then Ok (a * b) else Fault SignedOverflow.

(** The exact rational value of a finite float. *)
Definition f32_to_Q (x : float32) : option Q :=
  match x with
  | S754_zero _ => Some 0%Q
  | S754_finite s m e =>
      Some (match e with
            | Zneg p => Qmake (cond_Zopp s (Zpos m)) (2 ^ p)
            | _ => inject_Z (cond_Zopp s (Zpos m * 2 ^ e))
            end)
  | S754_infinity _ | S754_nan => None
  end.

(** Float expressions: operands are evaluated left to right and the first
    fault wins. *)
Definition flift2 (op : float32 -> float32 -> float32)
    (x y : result float32) : result float32 :=
  a <- x;; b <- y;; ret (op a b).

Definition fdiv (x y : result float32) : result float32 :=
  a <- x;; b <- y;;
  if f32_eqb b f32_zero then Fault DivByZero else ret (f32_div a b).

Definition flt (z : Z) : result float32 := Ok (f32_of_Z z).

(** A float already computed, used as an operand. *)
Definition fval (x : float32) : result float32 := Ok x.
Coercion fval : spec_float >-> result.

Declare Scope f32_scope.
Delimit Scope f32_scope with F.
Infix "+" := (flift2 f32_add) : f32_scope.
Infix "-" := (flift2 f32_sub) : f32_scope.
Infix "*" := (flift2 f32_mul) : f32_scope.
Infix "/" := fdiv : f32_scope.

(** ** The driver's state *)

Definition BMP280_I2C_ADDR : Z := 0x76.
Definition BMP280_DEFAULT_CHIP_ID : Z := 0x58.
Definition BMP280_CHIP_ID_REG : Z := 0xD0.
Definition BMP280_CTRL_MEAS_REG : Z := 0xF4.
Definition BMP280_PRESSURE_MSB_REG : Z := 0xF7.
Definition BMP280_FORCED_MODE : Z := 0x01.
Definition BMP280_TEMPERATURE_CALIB_DIG_T1_LSB_REG : Z := 0x88.
Definition BMP280_PRESSURE_TEMPERATURE_CALIB_DATA_LENGTH : nat := 24.
Definition BMP280_DATA_FRAME_SIZE : nat := 6.

Definition BMP280_OVERSAMP_SKIPPED : Z := 0x00.
Definition BMP280_OVERSAMP_1X : Z := 0x01.
Definition BMP280_OVERSAMP_2X : Z := 0x02.
Definition BMP280_OVERSAMP_4X : Z := 0x03.
Definition BMP280_OVERSAMP_8X : Z := 0x04.
Definition BMP280_OVERSAMP_16X : Z := 0x05.

Definition BMP280_PRESSURE_OSR : Z := BMP280_OVERSAMP_8X.
Definition BMP280_TEMPERATURE_OSR : Z := BMP280_OVERSAMP_1X.
Definition BMP280_MODE : Z :=
  Z.lor (Z.lor (Z.shiftl BMP280_PRESSURE_OSR 2) (Z.shiftl BMP280_TEMPERATURE_OSR 5))
        BMP280_FORCED_MODE.

Definition T_INIT_MAX : Z := 20.
Definition T_MEASURE_PER_OSRS_MAX : Z := 37.
Definition T_SETUP_PRESSURE_MAX : Z := 10.

Record bmp280_calib_param_t : Type := mk_calib {
  dig_T1 : Z; dig_T2 : Z; dig_T3 : Z;
  dig_P1 : Z; dig_P2 : Z; dig_P3 : Z; dig_P4 : Z; dig_P5 : Z;
  dig_P6 : Z; dig_P7 : Z; dig_P8 : Z; dig_P9 : Z;
  t_fine : Z
}.

(** What went over the bus or was waited for, newest first. *)
Inductive bus_event : Type :=
  | EvDelay (ms : Z)
  | EvRead (addr reg : Z) (len : nat)
  | EvWrite (addr reg data : Z).

(** The statics of the file, and the log of the calls to [board.h]. *)
Record state : Type := mk_state {
  bmp280_chip_id : Z;
  bmp280InitDone : bool;
  bmp280_cal : bmp280_calib_param_t;
  bmp280_up : Z;
  bmp280_ut : Z;
  bus_log : list bus_event
}.

Definition set_t_fine (v : Z) (s : state) : state :=
  let c := bmp280_cal s in
  mk_state (bmp280_chip_id s) (bmp280InitDone s)
    (mk_calib (dig_T1 c) (dig_T2 c) (dig_T3 c) (dig_P1 c) (dig_P2 c) (dig_P3 c)
       (dig_P4 c) (dig_P5 c) (dig_P6 c) (dig_P7 c) (dig_P8 c) (dig_P9 c) v)
    (bmp280_up s) (bmp280_ut s) (bus_log s).

Definition set_chip_id (v : Z) (s : state) : state :=
  mk_state v (bmp280InitDone s) (bmp280_cal s) (bmp280_up s) (bmp280_ut s) (bus_log s).

Definition set_InitDone (v : bool) (s : state) : state :=
  mk_state (bmp280_chip_id s) v (bmp280_cal s) (bmp280_up s) (bmp280_ut s) (bus_log s).

Definition set_cal (c : bmp280_calib_param_t) (s : state) : state :=
  mk_state (bmp280_chip_id s) (bmp280InitDone s) c (bmp280_up s) (bmp280_ut s) (bus_log s).

Definition set_raw (up ut : Z) (s : state) : state :=
  mk_state (bmp280_chip_id s) (bmp280InitDone s) (bmp280_cal s) up ut (bus_log s).

Definition log_event (e : bus_event) (s : state) : state :=
  mk_state (bmp280_chip_id s) (bmp280InitDone s) (bmp280_cal s) (bmp280_up s)
    (bmp280_ut s) (e :: bus_log s).

(** ** The barometer capability structure of [board.h] *)

Inductive funptr : Type :=
  | fp_unset
  | fp_bmp280_start_ut
  | fp_bmp280_get_ut
  | fp_bmp280_start_up
  | fp_bmp280_get_up
  | fp_bmp280_calculate.

(** Modelled from the spec: [baro_t] is declared in [board.h]; these are the
    fields the driver assigns (per-channel latency, start and get of each
    channel, calculate). The widths of the two delays are not visible and no
    wrap-around is applied to them. *)
Record baro_t : Type := mk_baro {
  ut_delay : Z;
  up_delay : Z;
  start_ut : funptr;
  get_ut : funptr;
  start_up : funptr;
  get_up : funptr;
  calculate : funptr
}.

(** ** Compensation *)

(** [var1 + var2] of [bmp280_compensate_T], the sum that is truncated into
    [t_fine]. *)
Definition T_fine_sum (cal : bmp280_calib_param_t) (adc_T : Z) : result float32 :=
  var1 <- ((flt adc_T / flt 16384 - flt (dig_T1 cal) / flt 1024) * flt (dig_T2 cal))%F;;
  var2 <- (((flt adc_T / flt 131072 - flt (dig_T1 cal) / flt 8192)
           * (flt adc_T / flt 131072 - flt (dig_T1 cal) / flt 8192))
          * flt (dig_T3 cal))%F;;
  (var1 + var2)%F.

Definition bmp280_compensate_T (s : state) (adc_T : Z) : result (float32 * state) :=
  let cal := bmp280_cal s in
  var1 <- ((flt adc_T / flt 16384 - flt (dig_T1 cal) / flt 1024) * flt (dig_T2 cal))%F;;
  var2 <- (((flt adc_T / flt 131072 - flt (dig_T1 cal) / flt 8192)
           * (flt adc_T / flt 131072 - flt (dig_T1 cal) / flt 8192))
          * flt (dig_T3 cal))%F;;
  sum <- (var1 + var2)%F;;
  fine <- int32_of_f32 sum;;
  let s := set_t_fine fine s in
  T <- ((var1 + var2) / flt 5120)%F;;
  ret (T, s).

(** The divisor of [bmp280_compensate_P]: [var1] as it stands at the test
    [var1 == 0.0f]. *)
Definition P_divisor (cal : bmp280_calib_param_t) : result float32 :=
  var1 <- (flt (t_fine cal) / flt 2 - flt 64000)%F;;
  var1 <- ((flt (dig_P3 cal) * var1 * var1 / flt 524288 + flt (dig_P2 cal) * var1)
          / flt 524288)%F;;
  ((flt 1 + var1 / flt 32768) * flt (dig_P1 cal))%F.

Definition bmp280_compensate_P (s : state) (adc_P : Z) : result float32 :=
  let cal := bmp280_cal s in
  var1 <- (flt (t_fine cal) / flt 2 - flt 64000)%F;;
  var2 <- (var1 * var1 * flt (dig_P6 cal) / flt 32768)%F;;
  var2 <- (var2 + var1 * flt (dig_P5 cal) * flt 2)%F;;
  var2 <- (var2 / flt 4 + flt (dig_P4 cal) * flt 65536)%F;;
  var1 <- ((flt (dig_P3 cal) * var1 * var1 / flt 524288 + flt (dig_P2 cal) * var1)
          / flt 524288)%F;;
  var1 <- ((flt 1 + var1 / flt 32768) * flt (dig_P1 cal))%F;;
  if f32_eqb var1 f32_zero then ret f32_zero else
  p <- (flt 1048576 - flt adc_P)%F;;
  p <- ((p - var2 / flt 4096) * flt 6250 / var1)%F;;
  var1 <- (flt (dig_P9 cal) * p * p / flt 2147483648)%F;;
  var2 <- (p * flt (dig_P8 cal) / flt 32768)%F;;
  p <- (p + (var1 + var2 + flt (dig_P7 cal)) / flt 16)%F;;
  ret p.

(** ** Output through pointers *)

(** A pointer to an [int32_t] of the caller: null, or the address of a cell
    of the caller's memory. *)
Abbreviation ptr := (option Z).

Definition is_null (p : ptr) : bool :=
  match p with Some _ => false | None => true end.

(** [*p = v]. *)
Definition store (p : ptr) (v : Z) (m : gmap Z Z) : result (gmap Z Z) :=
  match p with
  | Some a => Ok (<[a := v]> m)
  | None => Fault NullDeref
  end.

Definition bmp280_calculate (s : state) (m : gmap Z Z) (pressure temperature : ptr)
    : result (state * gmap Z Z) :=
  r <- bmp280_compensate_T s (bmp280_ut s);;
  let '(t, s) := r in
  p <- bmp280_compensate_P s (bmp280_up s);;
  m <- (if is_null pressure then ret m
       else v <- int32_of_f32 p;; store pressure v m);;
  m <- (if is_null temperature then ret m
       else ti <- int32_of_f32 t;; v <- mul_int32 ti 100;; store temperature v m);;
  ret (s, m).

(** Following the spec's words, not the source: a compensated temperature in
    hundredths of a degree, [(int32_t)(t * 100)]. *)
Definition centi_of_f32 (t : float32) : result Z :=
  x <- (t * flt 100)%F;; int32_of_f32 x.

(** ** Raw frame decoding *)

(** The expression of [bmp280_get_up] that packs (MSB, LSB, XLSB) into a raw
    sample: [(int32_t)((uint32_t)msb << 12 | (uint32_t)lsb << 4 | (uint32_t)xlsb >> 4)]. *)
Definition raw20 (msb lsb xlsb : Byte.byte) : Z :=
  to_int32 (Z.lor (Z.lor (wrap32 (Z.shiftl (u8 msb) 12)) (wrap32 (Z.shiftl (u8 lsb) 4)))
                  (Z.shiftr (u8 xlsb) 4)).

(** ** Latency of a conversion *)

(** [(1 << osr) >> 1]: how many samples an oversampling code takes. *)
Definition osrs_count (osr : Z) : Z := Z.shiftr (Z.shiftl 1 osr) 1.

(** The initialiser of [baro->up_delay], as a function of the two
    oversampling macros. *)
Definition up_delay_of (osr_t osr_p : Z) : Z :=
  Z.quot (T_INIT_MAX + T_MEASURE_PER_OSRS_MAX * (osrs_count osr_t + osrs_count osr_p)
          + (if osr_p =? 0 then 0 else T_SETUP_PRESSURE_MAX) + 15) 16 * 1000.

(** The closed form of the latency in the two sampling counts. *)
Definition latency_closed_form (count_t count_p : Z) : Z :=
  (T_INIT_MAX + T_MEASURE_PER_OSRS_MAX * (count_t + count_p) + T_SETUP_PRESSURE_MAX + 15)
  / 16 * 1000.

(** ** Calibration block *)

(** The 24 bytes read over [bmp280_cal]: twelve 16-bit fields, least
    significant byte first; [t_fine] lies behind them and is not touched. *)
Definition load_calib (d : list Byte.byte) (c : bmp280_calib_param_t)
    : bmp280_calib_param_t :=
  let b i := nth i d Byte.x00 in
  mk_calib (u16_le (b 0%nat) (b 1%nat)) (s16_le (b 2%nat) (b 3%nat))
    (s16_le (b 4%nat) (b 5%nat)) (u16_le (b 6%nat) (b 7%nat))
    (s16_le (b 8%nat) (b 9%nat)) (s16_le (b 10%nat) (b 11%nat))
    (s16_le (b 12%nat) (b 13%nat)) (s16_le (b 14%nat) (b 15%nat))
    (s16_le (b 16%nat) (b 17%nat)) (s16_le (b 18%nat) (b 19%nat))
    (s16_le (b 20%nat) (b 21%nat)) (s16_le (b 22%nat) (b 23%nat))
    (t_fine c).

(** ** Bus primitives and the operations that use them *)

Section Bus.

(** What the device answers: the byte of register [reg] of the device at
    [addr], given everything that happened on the bus before. *)
Variable device : list bus_event -> Z -> Z -> Byte.byte.

(** Modelled from the spec: [delay] of [board.h], a coarse timing delay; it
    only leaves its mark in the log. *)
Definition delay (ms : Z) (s : state) : state := log_event (EvDelay ms) s.

(** Modelled from the spec: [i2cRead] of [board.h],
    read(deviceAddress, registerAddress, length) -> bytes, a burst read of
    [len] consecutive registers. Transfers are taken to complete. *)
Definition i2cRead (addr reg : Z) (len : nat) (s : state) : list Byte.byte * state :=
  (map (fun i => device (bus_log s) addr (reg + Z.of_nat i)) (seq 0 len),
   log_event (EvRead addr reg len) s).

(** Modelled from the spec: [i2cWrite] of [board.h],
    write(deviceAddress, registerAddress, byte). *)
Definition i2cWrite (addr reg data : Z) (s : state) : state :=
  log_event (EvWrite addr reg data) s.

(** The identity byte that a call of [bmp280Detect] on the uninitialised
    driver reads in state [s]: what the device answers after the 20 ms. *)
Definition identity_read (s : state) : Z :=
  u8 (device (EvDelay 20 :: bus_log s) BMP280_I2C_ADDR BMP280_CHIP_ID_REG).

Definition bmp280Detect (s : state) (baro : baro_t) : bool * state * baro_t :=
  if bmp280InitDone s then (true, s, baro) else
  let s := delay 20 s in
  let '(d, s) := i2cRead BMP280_I2C_ADDR BMP280_CHIP_ID_REG 1 s in
  let s := set_chip_id (u8 (nth 0 d Byte.x00)) s in
  if negb (bmp280_chip_id s =? BMP280_DEFAULT_CHIP_ID) then (false, s, baro) else
  let '(d, s) := i2cRead BMP280_I2C_ADDR BMP280_TEMPERATURE_CALIB_DIG_T1_LSB_REG 24 s in
  let s := set_cal (load_calib d (bmp280_cal s)) s in
  let s := i2cWrite BMP280_I2C_ADDR BMP280_CTRL_MEAS_REG BMP280_MODE s in
  let s := set_InitDone true s in
  let baro :=
    {| ut_delay := 0;
       get_ut := fp_bmp280_get_ut;
       start_ut := fp_bmp280_start_ut;
       up_delay := up_delay_of BMP280_TEMPERATURE_OSR BMP280_PRESSURE_OSR;
       start_up := fp_bmp280_start_up;
       get_up := fp_bmp280_get_up;
       calculate := fp_bmp280_calculate |} in
  (true, s, baro).

Definition bmp280_start_ut (s : state) : state := s.

Definition bmp280_get_ut (s : state) : state := s.

Definition bmp280_start_up (s : state) : state :=
  i2cWrite BMP280_I2C_ADDR BMP280_CTRL_MEAS_REG BMP280_MODE s.

Definition bmp280_get_up (s : state) : state :=
  let '(data, s) := i2cRead BMP280_I2C_ADDR BMP280_PRESSURE_MSB_REG BMP280_DATA_FRAME_SIZE s in
  let b i := nth i data Byte.x00 in
  let s := set_raw (raw20 (b 0%nat) (b 1%nat) (b 2%nat)) (bmp280_ut s) s in
  set_raw (bmp280_up s) (raw20 (b 3%nat) (b 4%nat) (b 5%nat)) s.

(** [n] calls of [bmp280Detect] in a row: the values returned, oldest
    first, and where the driver and the capability structure end up. *)
Fixpoint detect_calls (n : nat) (s : state) (baro : baro_t)
    : list bool * state * baro_t :=
  match n with
  | O => ([], s, baro)
  | S n =>
      let '(r, s, baro) := bmp280Detect s baro in
      let '(rs, s, baro) := detect_calls n s baro in
      (r :: rs, s, baro)
  end.

End Bus.

(** ** Reading the log *)

Definition is_calib_read (e : bus_event) : bool :=
  match e with
  | EvRead addr reg len =>
      (addr =? BMP280_I2C_ADDR) && (reg =? BMP280_TEMPERATURE_CALIB_DIG_T1_LSB_REG)
      && Nat.eqb len 24
  | _ => false
  end.

Definition is_ctrl_write (e : bus_event) : bool :=
  match e with
  | EvWrite addr reg _ => (addr =? BMP280_I2C_ADDR) && (reg =? BMP280_CTRL_MEAS_REG)
  | _ => false
  end.

Definition count_events (f : bus_event -> bool) (l : list bus_event) : nat :=
  length (List.filter f l).

(** ** Reference data *)

(** The calibration and the raw sample of the worked example of the data
    sheet. *)
Definition ref_cal : bmp280_calib_param_t :=
  mk_calib 27504 26435 (-1000) 36477 (-10685) 3024 2855 140 (-7) 15500 (-14600) 6000 0.

Definition ref_state : state := mk_state 0x58 true ref_cal 415148 519888 [].

(** A device that has the BMP280 identity and answers [0] elsewhere, and one
    that answers [0] everywhere. *)
Definition bmp280_device (_ : list bus_event) (_ reg : Z) : Byte.byte :=
  if reg =? BMP280_CHIP_ID_REG then Byte.x58 else Byte.x00.

Definition absent_device (_ : list bus_event) (_ _ : Z) : Byte.byte := Byte.x00.

(** A device whose measurement registers hold AB CD E0 for the pressure. *)
Definition abcde_device (_ : list bus_event) (_ reg : Z) : Byte.byte :=
  if reg =? 0xF7 then Byte.xab
  else if reg =? 0xF8 then Byte.xcd
  else if reg =? 0xF9 then Byte.xe0
  else Byte.x00.

(** The statics as the C file initialises them, and an empty capability
    structure. *)
Definition boot_state : state :=
  mk_state 0 false (mk_calib 0 0 0 0 0 0 0 0 0 0 0 0 0) 0 0 [].

Definition empty_baro : baro_t :=
  mk_baro 0 0 fp_unset fp_unset fp_unset fp_unset fp_unset.

(** ** The control word and the calibration ranges *)

(** The macro [BMP280_MODE] as a function of its three fields:
    [osr_p << 2 | osr_t << 5 | mode]. *)
Definition ctrl_meas_pack (osr_p osr_t mode : Z) : Z :=
  Z.lor (Z.lor (Z.shiftl osr_p 2) (Z.shiftl osr_t 5)) mode.

(** The sum that the initialiser of [up_delay] rounds up, in sixteenths of
    a millisecond. *)
Definition latency_ticks (osr_t osr_p : Z) : Z :=
  T_INIT_MAX + T_MEASURE_PER_OSRS_MAX * (osrs_count osr_t + osrs_count osr_p)
  + (if osr_p =? 0 then 0 else T_SETUP_PRESSURE_MAX).

(** The ranges of the C types of the twelve coefficients. *)
Definition is_uint16 (z : Z) : Prop := 0 <= z <= 65535.
Definition is_int16 (z : Z) : Prop := -32768 <= z <= 32767.

Definition calib_in_range (c : bmp280_calib_param_t) : Prop :=
  is_uint16 (dig_T1 c) /\ is_int16 (dig_T2 c) /\ is_int16 (dig_T3 c)
  /\ is_uint16 (dig_P1 c) /\ is_int16 (dig_P2 c) /\ is_int16 (dig_P3 c)
  /\ is_int16 (dig_P4 c) /\ is_int16 (dig_P5 c) /\ is_int16 (dig_P6 c)
  /\ is_int16 (dig_P7 c) /\ is_int16 (dig_P8 c) /\ is_int16 (dig_P9 c).

(** The twelve coefficients in the order of the calibration block. *)
Definition calib_fields (c : bmp280_calib_param_t) : list Z :=
  [dig_T1 c; dig_T2 c; dig_T3 c; dig_P1 c; dig_P2 c; dig_P3 c;
   dig_P4 c; dig_P5 c; dig_P6 c; dig_P7 c; dig_P8 c; dig_P9 c].

(** What the device answers to the calibration read of a call of
    [bmp280Detect] on the uninitialised driver in state [s]: the 24 bytes
    from 0x88 on, after the delay and the identity read. *)
Definition calib_answer (device : list bus_event -> Z -> Z -> Byte.byte) (s : state)
    : list Byte.byte :=
  map (fun i =>
         device (EvRead BMP280_I2C_ADDR BMP280_CHIP_ID_REG 1 :: EvDelay 20 :: bus_log s)
           BMP280_I2C_ADDR
           (BMP280_TEMPERATURE_CALIB_DIG_T1_LSB_REG + Z.of_nat i))
      (seq 0 24).

(** A calibration block whose only non-zero coefficient is [dig_P1 = 1],
    in a driver that holds the raw sample (0, 0). *)
Definition unit_P1_state : state :=
  mk_state 0x58 true (mk_calib 0 0 0 1 0 0 0 0 0 0 0 0 0) 0 0 [].

(** The identity byte the driver holds after [n] calls of [bmp280Detect]
    that all fail, starting uninitialised in state [s]: as before when
    there was no call, else what the device answered to the last identity
    read. *)
Definition chip_id_after_failures
    (device : list bus_event -> Z -> Z -> Byte.byte) (n : nat) (s : state) : Z :=
  match n with
  | O => bmp280_chip_id s
  | S k =>
      u8 (device
            (EvDelay 20
             :: concat (repeat [EvRead BMP280_I2C_ADDR BMP280_CHIP_ID_REG 1; EvDelay 20] k)
                ++ bus_log s)
            BMP280_I2C_ADDR BMP280_CHIP_ID_REG)
  end.

(** A device with another identity, 0x60. *)
Definition other_chip_device (_ : list bus_event) (_ reg : Z) : Byte.byte :=
  if reg =? BMP280_CHIP_ID_REG then Byte.x60 else Byte.x00.

(** ** More devices *)

(** The calibration block of [ref_cal] as the device holds it, and the
    measurement frame of the raw sample of [ref_state]. *)
Definition ref_calib_bytes : list Byte.byte :=
  [Byte.x70; Byte.x6b; Byte.x43; Byte.x67; Byte.x18; Byte.xfc;
   Byte.x7d; Byte.x8e; Byte.x43; Byte.xd6; Byte.xd0; Byte.x0b;
   Byte.x27; Byte.x0b; Byte.x8c; Byte.x00; Byte.xf9; Byte.xff;
   Byte.x8c; Byte.x3c; Byte.xf8; Byte.xc6; Byte.x70; Byte.x17].

Definition ref_frame_bytes : list Byte.byte :=
  [Byte.x65; Byte.x5a; Byte.xc0; Byte.x7e; Byte.xed; Byte.x00].

Definition ref_device (_ : list bus_event) (_ reg : Z) : Byte.byte :=
  if reg =? BMP280_CHIP_ID_REG then Byte.x58
  else if (BMP280_TEMPERATURE_CALIB_DIG_T1_LSB_REG <=? reg) && (reg <? 0xA0)
       then nth (Z.to_nat (reg - BMP280_TEMPERATURE_CALIB_DIG_T1_LSB_REG))
              ref_calib_bytes Byte.x00
  else if (BMP280_PRESSURE_MSB_REG <=? reg) && (reg <? 0xFD)
       then nth (Z.to_nat (reg - BMP280_PRESSURE_MSB_REG)) ref_frame_bytes Byte.x00
  else Byte.x00.

(** A device that shows the BMP280 identity only from its second identity
    read on. *)
Definition late_device (log : list bus_event) (_ reg : Z) : Byte.byte :=
  if (reg =? BMP280_CHIP_ID_REG) && (2 <=? Z.of_nat (length log)) then Byte.x58
  else Byte.x00.

(** * Properties *)

(** ** Machine integers *)

Lemma u8_range (b : Byte.byte) : 0 <= u8 b < 256.
Proof.
  unfold u8. pose proof (Byte.to_N_bounded b) as H. lia.
Qed.

Lemma lor_below_pow2 (a b n : Z) :
  0 <= a < 2 ^ n -> 0 <= b < 2 ^ n -> 0 <= Z.lor a b < 2 ^ n.
Proof.
  intros Ha Hb.
  assert (Hnn : 0 <= Z.lor a b) by (apply Z.lor_nonneg; lia).
  split; [exact Hnn|].
  destruct (Z.eq_dec (Z.lor a b) 0) as [E|E]; [lia|].
  apply Z.log2_lt_pow2; [lia|].
  rewrite Z.log2_lor by lia.
  assert (Hn : 0 < n).
  { destruct (Z.lt_trichotomy n 0) as [Hlt|[Heq|Hgt]]; [|subst n|exact Hgt].
    - rewrite Z.pow_neg_r in Ha by exact Hlt. lia.
    - assert (a = 0) by lia. assert (b = 0) by lia. subst. now elim E. }
  assert (Hlog : forall x, 0 <= x < 2 ^ n -> Z.log2 x < n).
  { intros x Hx. destruct (Z.eq_dec x 0) as [->|Hx0]; [exact Hn|].
    apply Z.log2_lt_pow2; lia. }
  apply Z.max_lub_lt; apply Hlog; assumption.
Qed.

Lemma wrap32_small (z : Z) : 0 <= z < 2 ^ 32 -> wrap32 z = z.
Proof. intros H. unfold wrap32. now apply Z.mod_small. Qed.

Lemma to_int32_small (z : Z) : 0 <= z < 2 ^ 31 -> to_int32 z = z.
Proof.
  intros H. unfold to_int32. rewrite wrap32_small by lia.
  destruct (Z.ltb_spec z (2 ^ 31)); lia.
Qed.

(** The packing of [raw20] never wraps: it is the plain 20-bit value. *)
Lemma raw20_plain (msb lsb xlsb : Byte.byte) :
  raw20 msb lsb xlsb
  = Z.lor (Z.lor (Z.shiftl (u8 msb) 12) (Z.shiftl (u8 lsb) 4)) (Z.shiftr (u8 xlsb) 4)
  /\ 0 <= raw20 msb lsb xlsb <= 1048575.
Proof.
  pose proof (u8_range msb) as Hm. pose proof (u8_range lsb) as Hl.
  pose proof (u8_range xlsb) as Hx.
  assert (H1 : 0 <= Z.shiftl (u8 msb) 12 < 2 ^ 20)
    by (rewrite Z.shiftl_mul_pow2 by lia; lia).
  assert (H2 : 0 <= Z.shiftl (u8 lsb) 4 < 2 ^ 20)
    by (rewrite Z.shiftl_mul_pow2 by lia; lia).
  assert (H3 : 0 <= Z.shiftr (u8 xlsb) 4 < 2 ^ 20).
  { rewrite Z.shiftr_div_pow2 by lia. split.
    - apply Z.div_pos; lia.
    - apply Z.le_lt_trans with (u8 xlsb); [|lia].
      apply Z.div_le_upper_bound; lia. }
  pose proof (lor_below_pow2 _ _ 20 H1 H2) as H12.
  pose proof (lor_below_pow2 _ _ 20 H12 H3) as H123.
  unfold raw20. rewrite !wrap32_small by lia.
  rewrite to_int32_small by lia. split; [reflexivity|lia].
Qed.

(** ** Raw frames *)

(** C3. Whatever six bytes the device answers to the burst read of
    [bmp280_get_up], the raw pressure stored is
    [(byte0<<12)|(byte1<<4)|(byte2>>4)], the raw temperature stored is
    [(byte3<<12)|(byte4<<4)|(byte5>>4)], and both lie in 0..1048575. *)
Theorem get_up_decodes_frame
    (device : list bus_event -> Z -> Z -> Byte.byte) (s : state) :
  let byte i := u8 (device (bus_log s) BMP280_I2C_ADDR (BMP280_PRESSURE_MSB_REG + i)) in
  let s' := bmp280_get_up device s in
  bmp280_up s' = Z.lor (Z.lor (Z.shiftl (byte 0) 12) (Z.shiftl (byte 1) 4))
                       (Z.shiftr (byte 2) 4)
  /\ bmp280_ut s' = Z.lor (Z.lor (Z.shiftl (byte 3) 12) (Z.shiftl (byte 4) 4))
                          (Z.shiftr (byte 5) 4)
  /\ 0 <= bmp280_up s' <= 1048575
  /\ 0 <= bmp280_ut s' <= 1048575
  /\ bus_log s' = EvRead BMP280_I2C_ADDR BMP280_PRESSURE_MSB_REG 6 :: bus_log s.
Proof.
  intros byte s'. subst byte s'.
  unfold bmp280_get_up, i2cRead, BMP280_DATA_FRAME_SIZE.
  cbn [seq map nth set_raw log_event bmp280_up bmp280_ut bus_log].
  change (Z.of_nat 0) with 0. change (Z.of_nat 1) with 1. change (Z.of_nat 2) with 2.
  change (Z.of_nat 3) with 3. change (Z.of_nat 4) with 4. change (Z.of_nat 5) with 5.
  set (d := device _ _).
  destruct (raw20_plain (d (BMP280_PRESSURE_MSB_REG + 0))
              (d (BMP280_PRESSURE_MSB_REG + 1)) (d (BMP280_PRESSURE_MSB_REG + 2)))
    as [Ep Rp].
  destruct (raw20_plain (d (BMP280_PRESSURE_MSB_REG + 3))
              (d (BMP280_PRESSURE_MSB_REG + 4)) (d (BMP280_PRESSURE_MSB_REG + 5)))
    as [Et Rt].
  repeat split; try assumption; lia.
Qed.

(** C4, as stated: the triplet (0xAB, 0xCD, 0xE0) does not decode to
    703,182. *)
Lemma raw20_abcde_is_not_703182 :
  raw20 Byte.xab Byte.xcd Byte.xe0 <> 703182
  /\ Z.lor (Z.lor (Z.shiftl 0xAB 12) (Z.shiftl 0xCD 4)) (Z.shiftr 0xE0 4) <> 703182.
Proof. split; vm_compute; discriminate. Qed.

(** C4, amended. The triplet (0xAB, 0xCD, 0xE0) decodes to
    [(0xAB<<12)|(0xCD<<4)|(0xE0>>4)], which is 0xABCDE = 703,710, and that is
    what [bmp280_get_up] stores when the pressure registers hold it. *)
Theorem raw20_abcde :
  raw20 Byte.xab Byte.xcd Byte.xe0
  = Z.lor (Z.lor (Z.shiftl 0xAB 12) (Z.shiftl 0xCD 4)) (Z.shiftr 0xE0 4)
  /\ raw20 Byte.xab Byte.xcd Byte.xe0 = 703710
  /\ bmp280_up (bmp280_get_up abcde_device boot_state) = 703710.
Proof. repeat split; vm_compute; reflexivity. Qed.

(** ** Latency *)

Lemma osrs_count_0 : osrs_count 0 = 0.
Proof. reflexivity. Qed.

Lemma osrs_count_pow2 (c : Z) : 1 <= c -> osrs_count c = 2 ^ (c - 1).
Proof.
  intros H. unfold osrs_count.
  rewrite Z.shiftl_1_l, Z.shiftr_div_pow2 by lia.
  replace c with (c - 1 + 1) at 1 by lia.
  rewrite Z.pow_add_r by lia. now rewrite Z.div_mul by lia.
Qed.

Lemma osrs_count_nonneg (c : Z) : 0 <= c -> 0 <= osrs_count c.
Proof.
  intros H. destruct (Z.eq_dec c 0) as [->|Hc]; [now rewrite osrs_count_0|].
  rewrite osrs_count_pow2 by lia. apply Z.pow_nonneg. lia.
Qed.

Lemma osrs_count_pos (c : Z) : 1 <= c -> 1 <= osrs_count c.
Proof.
  intros H. rewrite osrs_count_pow2 by exact H.
  assert (0 < 2 ^ (c - 1)) by (apply Z.pow_pos_nonneg; lia). lia.
Qed.

Lemma up_delay_of_closed_form (t p : Z) :
  0 <= t -> 1 <= p ->
  up_delay_of t p = latency_closed_form (osrs_count t) (osrs_count p).
Proof.
  intros Ht Hp. unfold up_delay_of, latency_closed_form.
  pose proof (osrs_count_nonneg t Ht). pose proof (osrs_count_pos p Hp).
  destruct (Z.eqb_spec p 0) as [E|_]; [lia|].
  rewrite Z.quot_div_nonneg; [reflexivity| |lia].
  unfold T_INIT_MAX, T_MEASURE_PER_OSRS_MAX, T_SETUP_PRESSURE_MAX. lia.
Qed.

Lemma up_delay_of_mono (t t' p p' : Z) :
  0 <= t -> 0 <= t' -> 0 <= p -> 0 <= p' ->
  osrs_count t <= osrs_count t' -> osrs_count p <= osrs_count p' ->
  up_delay_of t p <= up_delay_of t' p'.
Proof.
  intros Ht Ht' Hp Hp' Hct Hcp. unfold up_delay_of.
  apply Z.mul_le_mono_nonneg_r; [lia|].
  apply Z.quot_le_mono; [lia|].
  assert (Hsetup : (if p =? 0 then 0 else T_SETUP_PRESSURE_MAX)
                   <= (if p' =? 0 then 0 else T_SETUP_PRESSURE_MAX)).
  { unfold T_SETUP_PRESSURE_MAX.
    destruct (Z.eqb_spec p 0) as [_|Hp0]; destruct (Z.eqb_spec p' 0) as [E|_]; try lia.
    subst p'. rewrite osrs_count_0 in Hcp.
    pose proof (osrs_count_pos p ltac:(lia)). lia. }
  unfold T_INIT_MAX, T_MEASURE_PER_OSRS_MAX in *. lia.
Qed.

(** ** Detection *)

Section Detection.

Variable device : list bus_event -> Z -> Z -> Byte.byte.

Local Abbreviation identity_read := (identity_read device).

Lemma detect_initialized (s : state) (baro : baro_t) :
  bmp280InitDone s = true -> bmp280Detect device s baro = (true, s, baro).
Proof. intros H. unfold bmp280Detect. now rewrite H. Qed.

Lemma detect_mismatch (s : state) (baro : baro_t) :
  bmp280InitDone s = false ->
  identity_read s <> BMP280_DEFAULT_CHIP_ID ->
  bmp280Detect device s baro
  = (false,
     mk_state (identity_read s) false (bmp280_cal s) (bmp280_up s) (bmp280_ut s)
       (EvRead BMP280_I2C_ADDR BMP280_CHIP_ID_REG 1 :: EvDelay 20 :: bus_log s),
     baro).
Proof.
  destruct s as [cid init cal up ut log]. unfold identity_read.
  cbn [bus_log bmp280InitDone bmp280_cal bmp280_up bmp280_ut].
  intros -> Hid. unfold bmp280Detect, i2cRead, delay, set_chip_id, log_event.
  cbn [bus_log bmp280InitDone bmp280_cal bmp280_up bmp280_ut bmp280_chip_id
       seq map nth].
  change (BMP280_CHIP_ID_REG + Z.of_nat 0) with BMP280_CHIP_ID_REG.
  destruct (Z.eqb_spec
              (u8 (device (EvDelay 20 :: log) BMP280_I2C_ADDR BMP280_CHIP_ID_REG))
              BMP280_DEFAULT_CHIP_ID) as [E|_];
    [contradiction|reflexivity].
Qed.

Lemma detect_match (s : state) (baro : baro_t) :
  bmp280InitDone s = false ->
  identity_read s = BMP280_DEFAULT_CHIP_ID ->
  exists cal,
    bmp280Detect device s baro
    = (true,
       mk_state BMP280_DEFAULT_CHIP_ID true cal (bmp280_up s) (bmp280_ut s)
         (EvWrite BMP280_I2C_ADDR BMP280_CTRL_MEAS_REG BMP280_MODE
          :: EvRead BMP280_I2C_ADDR BMP280_TEMPERATURE_CALIB_DIG_T1_LSB_REG 24
          :: EvRead BMP280_I2C_ADDR BMP280_CHIP_ID_REG 1
          :: EvDelay 20 :: bus_log s),
       mk_baro 0 (up_delay_of BMP280_TEMPERATURE_OSR BMP280_PRESSURE_OSR)
         fp_bmp280_start_ut fp_bmp280_get_ut
         fp_bmp280_start_up fp_bmp280_get_up fp_bmp280_calculate)
    /\ t_fine cal = t_fine (bmp280_cal s).
Proof.
  destruct s as [cid init cal up ut log]. unfold identity_read.
  cbn [bus_log bmp280InitDone bmp280_cal bmp280_up bmp280_ut].
  intros -> Hid.
  unfold bmp280Detect, i2cRead, i2cWrite, delay, set_chip_id, set_cal,
    set_InitDone, log_event.
  cbn [bus_log bmp280InitDone bmp280_cal bmp280_up bmp280_ut bmp280_chip_id
       seq map nth].
  change (BMP280_CHIP_ID_REG + Z.of_nat 0) with BMP280_CHIP_ID_REG.
  rewrite Hid.
  change (negb (BMP280_DEFAULT_CHIP_ID =? BMP280_DEFAULT_CHIP_ID)) with false.
  cbv iota. eexists. split; reflexivity.
Qed.

Lemma detect_calls_initialized (n : nat) (s : state) (baro : baro_t) :
  bmp280InitDone s = true ->
  detect_calls device n s baro = (repeat true n, s, baro).
Proof.
  intros H. induction n as [|n IH]; [reflexivity|].
  cbn [detect_calls repeat]. rewrite detect_initialized by exact H.
  now rewrite IH.
Qed.

(** C7. When the driver is not initialised, [bmp280Detect] returns false
    exactly when the identity byte it reads differs from 0x58; and when it
    fails it has read the identity register and nothing else, written
    nothing, left [bmp280InitDone] and the calibration as they were, and
    left the capability structure untouched. *)
Theorem detect_fails_iff_identity_mismatch
    (s s' : state) (baro baro' : baro_t) (r : bool) :
  bmp280InitDone s = false ->
  bmp280Detect device s baro = (r, s', baro') ->
  (r = false <-> identity_read s <> BMP280_DEFAULT_CHIP_ID)
  /\ bmp280_chip_id s' = identity_read s
  /\ (r = false ->
      bmp280InitDone s' = false
      /\ baro' = baro
      /\ bmp280_cal s' = bmp280_cal s
      /\ bus_log s'
         = EvRead BMP280_I2C_ADDR BMP280_CHIP_ID_REG 1 :: EvDelay 20 :: bus_log s
      /\ count_events is_calib_read (bus_log s')
         = count_events is_calib_read (bus_log s)
      /\ count_events is_ctrl_write (bus_log s')
         = count_events is_ctrl_write (bus_log s)).
Proof.
  intros Hinit Hrun.
  destruct (Z.eq_dec (identity_read s) BMP280_DEFAULT_CHIP_ID) as [Hid|Hid].
  - destruct (detect_match s baro Hinit Hid) as (cal & E & _).
    rewrite E in Hrun. injection Hrun as <- <- <-.
    cbn [bmp280_chip_id]. repeat split; try congruence; discriminate.
  - rewrite (detect_mismatch s baro Hinit Hid) in Hrun.
    injection Hrun as <- <- <-.
    cbn [bmp280_chip_id bmp280InitDone bmp280_cal bus_log].
    repeat split; auto.
Qed.

(** C6. Once a call of [bmp280Detect] on the uninitialised driver has
    succeeded, it has made exactly one 24-byte calibration read and one
    write of the control register, and every later call, however many,
    returns true and changes neither the driver, nor the log of the bus,
    nor the capability structure: two calls make one calibration read and
    one control write in total. *)
Theorem detect_idempotent_after_success
    (s s1 : state) (baro baro1 : baro_t) :
  bmp280InitDone s = false ->
  bmp280Detect device s baro = (true, s1, baro1) ->
  bus_log s1
  = EvWrite BMP280_I2C_ADDR BMP280_CTRL_MEAS_REG BMP280_MODE
    :: EvRead BMP280_I2C_ADDR BMP280_TEMPERATURE_CALIB_DIG_T1_LSB_REG 24
    :: EvRead BMP280_I2C_ADDR BMP280_CHIP_ID_REG 1
    :: EvDelay 20 :: bus_log s
  /\ bmp280Detect device s1 baro1 = (true, s1, baro1)
  /\ (forall n, detect_calls device (S n) s baro = (repeat true (S n), s1, baro1))
  /\ (forall n s2 baro2 rs,
        detect_calls device (S n) s baro = (rs, s2, baro2) ->
        count_events is_calib_read (bus_log s2)
        = S (count_events is_calib_read (bus_log s))
        /\ count_events is_ctrl_write (bus_log s2)
           = S (count_events is_ctrl_write (bus_log s))
        /\ bus_log s2 = bus_log s1).
Proof.
  intros Hinit Hrun.
  destruct (Z.eq_dec (identity_read s) BMP280_DEFAULT_CHIP_ID) as [Hid|Hid];
    [|rewrite (detect_mismatch s baro Hinit Hid) in Hrun; discriminate].
  destruct (detect_match s baro Hinit Hid) as (cal & E & _).
  rewrite E in Hrun. injection Hrun as <- <-.
  assert (Hcalls : forall n,
             detect_calls device (S n) s baro
             = (repeat true (S n),
                mk_state BMP280_DEFAULT_CHIP_ID true cal (bmp280_up s) (bmp280_ut s)
                  (EvWrite BMP280_I2C_ADDR BMP280_CTRL_MEAS_REG BMP280_MODE
                   :: EvRead BMP280_I2C_ADDR BMP280_TEMPERATURE_CALIB_DIG_T1_LSB_REG 24
                   :: EvRead BMP280_I2C_ADDR BMP280_CHIP_ID_REG 1
                   :: EvDelay 20 :: bus_log s),
                mk_baro 0 (up_delay_of BMP280_TEMPERATURE_OSR BMP280_PRESSURE_OSR)
                  fp_bmp280_start_ut fp_bmp280_get_ut
                  fp_bmp280_start_up fp_bmp280_get_up fp_bmp280_calculate)).
  { intros n. cbn [detect_calls repeat]. rewrite E.
    now rewrite detect_calls_initialized by reflexivity. }
  split; [reflexivity|]. split; [now apply detect_initialized|].
  split; [exact Hcalls|].
  intros n s2 baro2 rs Hn. rewrite Hcalls in Hn. injection Hn as _ <- _.
  cbn [bus_log]. repeat split.
Qed.

(** C8. The latency [bmp280Detect] stores in [up_delay] is the closed form
    [((T_INIT_MAX + T_MEASURE_PER_OSRS_MAX * (count_t + count_p)
       + T_SETUP_PRESSURE_MAX + 15) / 16) * 1000]
    at the configured sampling counts 1 and 8, which is 23000; the closed
    form is what the initialiser computes for every temperature code and
    every pressure code other than "skipped"; and the initialiser does not
    decrease when the sampling count of either channel grows. *)
Theorem up_delay_latency_bound :
  (forall s s' baro baro',
     bmp280InitDone s = false ->
     bmp280Detect device s baro = (true, s', baro') ->
     up_delay baro'
     = latency_closed_form (osrs_count BMP280_TEMPERATURE_OSR)
         (osrs_count BMP280_PRESSURE_OSR))
  /\ osrs_count BMP280_TEMPERATURE_OSR = 1
  /\ osrs_count BMP280_PRESSURE_OSR = 8
  /\ latency_closed_form 1 8 = 23000
  /\ (forall t p,
        BMP280_OVERSAMP_SKIPPED <= t <= BMP280_OVERSAMP_16X ->
        BMP280_OVERSAMP_1X <= p <= BMP280_OVERSAMP_16X ->
        up_delay_of t p = latency_closed_form (osrs_count t) (osrs_count p))
  /\ (forall t t' p,
        BMP280_OVERSAMP_SKIPPED <= t <= BMP280_OVERSAMP_16X ->
        BMP280_OVERSAMP_SKIPPED <= t' <= BMP280_OVERSAMP_16X ->
        BMP280_OVERSAMP_SKIPPED <= p <= BMP280_OVERSAMP_16X ->
        osrs_count t <= osrs_count t' ->
        up_delay_of t p <= up_delay_of t' p)
  /\ (forall t p p',
        BMP280_OVERSAMP_SKIPPED <= t <= BMP280_OVERSAMP_16X ->
        BMP280_OVERSAMP_SKIPPED <= p <= BMP280_OVERSAMP_16X ->
        BMP280_OVERSAMP_SKIPPED <= p' <= BMP280_OVERSAMP_16X ->
        osrs_count p <= osrs_count p' ->
        up_delay_of t p <= up_delay_of t p').
Proof.
  unfold BMP280_OVERSAMP_SKIPPED, BMP280_OVERSAMP_1X, BMP280_OVERSAMP_16X.
  repeat split; try reflexivity.
  - intros s s' baro baro' Hinit Hrun.
    destruct (Z.eq_dec (identity_read s) BMP280_DEFAULT_CHIP_ID) as [Hid|Hid];
      [|rewrite (detect_mismatch s baro Hinit Hid) in Hrun; discriminate].
    destruct (detect_match s baro Hinit Hid) as (cal & E & _).
    rewrite E in Hrun. injection Hrun as _ <-. reflexivity.
  - intros t p Ht Hp. apply up_delay_of_closed_form; lia.
  - intros t t' p Ht Ht' Hp Hc. apply up_delay_of_mono; lia.
  - intros t p p' Ht Hp Hp' Hc. apply up_delay_of_mono; lia.
Qed.

End Detection.

Lemma detect_fails_iff_identity_mismatch_absent :
  bmp280Detect absent_device boot_state empty_baro
  = (false, (bmp280Detect absent_device boot_state empty_baro).1.2, empty_baro)
  /\ identity_read absent_device boot_state <> BMP280_DEFAULT_CHIP_ID
  /\ bmp280InitDone (bmp280Detect absent_device boot_state empty_baro).1.2 = false
  /\ bus_log (bmp280Detect absent_device boot_state empty_baro).1.2
     = [EvRead BMP280_I2C_ADDR BMP280_CHIP_ID_REG 1; EvDelay 20].
Proof.
  set (r := bmp280Detect absent_device boot_state empty_baro).
  assert (E : r = (false, r.1.2, empty_baro)) by reflexivity.
  destruct (detect_fails_iff_identity_mismatch absent_device boot_state r.1.2
              empty_baro empty_baro false eq_refl E)
    as (Hiff & _ & Hfail).
  destruct (Hfail eq_refl) as (Hinit & _ & _ & Hlog & _).
  split; [exact E|]. split; [now apply Hiff|]. split; [exact Hinit|exact Hlog].
Defined.

Lemma detect_idempotent_after_success_boot :
  detect_calls bmp280_device 2 boot_state empty_baro
  = ([true; true],
     (bmp280Detect bmp280_device boot_state empty_baro).1.2,
     (bmp280Detect bmp280_device boot_state empty_baro).2)
  /\ count_events is_calib_read
       (bus_log (detect_calls bmp280_device 2 boot_state empty_baro).1.2) = 1%nat
  /\ count_events is_ctrl_write
       (bus_log (detect_calls bmp280_device 2 boot_state empty_baro).1.2) = 1%nat.
Proof.
  set (r := bmp280Detect bmp280_device boot_state empty_baro).
  assert (E : r = (true, r.1.2, r.2)) by reflexivity.
  destruct (detect_idempotent_after_success bmp280_device boot_state r.1.2
              empty_baro r.2 eq_refl E)
    as (_ & _ & Hcalls & Hcount).
  split; [exact (Hcalls 1%nat)|].
  destruct (Hcount 1%nat _ _ _ (Hcalls 1%nat)) as (Hc & Hw & _).
  rewrite (Hcalls 1%nat). split; [exact Hc|exact Hw].
Defined.

Lemma up_delay_latency_bound_boot :
  up_delay (bmp280Detect bmp280_device boot_state empty_baro).2 = 23000
  /\ up_delay_of BMP280_OVERSAMP_1X BMP280_OVERSAMP_4X
     <= up_delay_of BMP280_OVERSAMP_1X BMP280_OVERSAMP_8X
  /\ up_delay_of BMP280_OVERSAMP_1X BMP280_OVERSAMP_8X
     <= up_delay_of BMP280_OVERSAMP_2X BMP280_OVERSAMP_8X.
Proof.
  destruct (up_delay_latency_bound bmp280_device)
    as (Hdetect & _ & _ & Hvalue & _ & Htemp & Hpres).
  set (r := bmp280Detect bmp280_device boot_state empty_baro).
  assert (E : r = (true, r.1.2, r.2)) by reflexivity.
  split; [|split].
  - rewrite (Hdetect boot_state r.1.2 empty_baro r.2 eq_refl E). exact Hvalue.
  - apply Hpres; vm_compute; intuition discriminate.
  - apply Htemp; vm_compute; intuition discriminate.
Defined.

(** ** Float expressions *)

Lemma fdiv_nonzero (a b : float32) :
  f32_eqb b f32_zero = false -> fdiv (Ok a) (Ok b) = Ok (f32_div a b).
Proof. intros H. unfold fdiv, bind, ret. now rewrite H. Qed.

(** Unfolds the operators of a float expression and decides the test of
    every division by a literal. *)
Ltac eval_float_ops :=
  cbv beta iota zeta delta [bind ret flift2 fdiv flt fval];
  repeat match goal with
         | |- context [f32_eqb (f32_of_Z ?k) f32_zero] =>
             change (f32_eqb (f32_of_Z k) f32_zero) with false; cbv beta iota
         end.

(** [bmp280_compensate_P] always returns: with [+0.0] when its divisor is
    zero, and with the value of the formula, whose division is by a non-zero
    divisor, when it is not. *)
Lemma compensate_P_cases (s : state) (adc_P : Z) :
  exists d, P_divisor (bmp280_cal s) = Ok d
    /\ (f32_eqb d f32_zero = true -> bmp280_compensate_P s adc_P = Ok f32_zero)
    /\ exists p, bmp280_compensate_P s adc_P = Ok p.
Proof.
  unfold P_divisor, bmp280_compensate_P. eval_float_ops.
  eexists. split; [reflexivity|].
  match goal with
  | |- context [f32_eqb ?e f32_zero] => destruct (f32_eqb e f32_zero) eqn:E
  end.
  - split; [reflexivity|]. now eexists.
  - split; [discriminate|]. eval_float_ops. now eexists.
Qed.

(** C5. Whatever the raw pressure and whatever [t_fine] holds, the divisor
    of [bmp280_compensate_P] is computed without a fault, the function
    returns exactly [+0.0] when that divisor compares equal to zero, and no
    division of the function is ever made by zero. *)
Theorem compensate_P_zero_divisor (s : state) (adc_P : Z) :
  (exists d, P_divisor (bmp280_cal s) = Ok d)
  /\ (forall d, P_divisor (bmp280_cal s) = Ok d -> f32_eqb d f32_zero = true ->
       bmp280_compensate_P s adc_P = Ok f32_zero)
  /\ bmp280_compensate_P s adc_P <> Fault DivByZero.
Proof.
  destruct (compensate_P_cases s adc_P) as (d & Hd & Hzero & p & Hp).
  split; [now exists d|]. split.
  - intros d' Hd' Hz. rewrite Hd in Hd'. injection Hd' as <-. now apply Hzero.
  - rewrite Hp. discriminate.
Qed.

Lemma compensate_P_zero_divisor_boot :
  P_divisor (bmp280_cal boot_state) = Ok f32_zero
  /\ bmp280_compensate_P boot_state 415148 = Ok f32_zero.
Proof.
  assert (Hd : P_divisor (bmp280_cal boot_state) = Ok f32_zero)
    by (vm_compute; reflexivity).
  split; [exact Hd|].
  exact (proj1 (proj2 (compensate_P_zero_divisor boot_state 415148))
           f32_zero Hd eq_refl).
Defined.

(** ** Temperature first, then pressure *)

Lemma compensate_T_ignores_t_fine (s : state) (stale adc_T : Z) :
  bmp280_compensate_T (set_t_fine stale s) adc_T = bmp280_compensate_T s adc_T.
Proof. destruct s as [cid init [] up ut log]. reflexivity. Qed.

Lemma compensate_T_cases (s : state) (adc_T : Z) :
  exists sum, T_fine_sum (bmp280_cal s) adc_T = Ok sum
    /\ bmp280_compensate_T s adc_T
       = (fine <- int32_of_f32 sum;;
          ret (f32_div sum (f32_of_Z 5120), set_t_fine fine s)).
Proof.
  unfold T_fine_sum, bmp280_compensate_T. eval_float_ops.
  eexists. split; reflexivity.
Qed.

Lemma compensate_T_sets_t_fine (s s' : state) (adc_T : Z) (t : float32) :
  bmp280_compensate_T s adc_T = Ok (t, s') ->
  exists sum fine,
    T_fine_sum (bmp280_cal s) adc_T = Ok sum
    /\ int32_of_f32 sum = Ok fine
    /\ s' = set_t_fine fine s.
Proof.
  destruct (compensate_T_cases s adc_T) as (sum & Hsum & ->).
  unfold bind, ret. destruct (int32_of_f32 sum) as [fine|f] eqn:E; [|discriminate].
  intros [= <- <-]. now exists sum, fine.
Qed.

Lemma calculate_unfold (s : state) (m : gmap Z Z) (pressure temperature : ptr) :
  bmp280_calculate s m pressure temperature
  = (r <- bmp280_compensate_T s (bmp280_ut s);;
     p <- bmp280_compensate_P (snd r) (bmp280_up (snd r));;
     m <- (if is_null pressure then ret m
           else v <- int32_of_f32 p;; store pressure v m);;
     m <- (if is_null temperature then ret m
           else ti <- int32_of_f32 (fst r);; v <- mul_int32 ti 100;;
                store temperature v m);;
     ret (snd r, m)).
Proof.
  unfold bmp280_calculate.
  destruct (bmp280_compensate_T s (bmp280_ut s)) as [[t s1]|f]; reflexivity.
Qed.

(** C2. In [bmp280_calculate] the temperature is compensated before the
    pressure, and the pressure is compensated in the state the temperature
    compensation of this call has left. Whatever [t_fine] held before the
    call has no influence on what the call returns, stores or leaves behind;
    the whole call is the pressure compensation run with [t_fine] set to the
    truncation of [var1 + var2] of the raw temperature of the current frame;
    and the pressure found in the caller's cell after a call is the
    conversion of the float that [bmp280_compensate_P] returns in that
    state. *)
Theorem calculate_recomputes_t_fine
    (s : state) (m : gmap Z Z) (pressure temperature : ptr) (stale : Z) :
  bmp280_calculate (set_t_fine stale s) m pressure temperature
  = bmp280_calculate s m pressure temperature
  /\ bmp280_calculate s m pressure temperature
     = (sum <- T_fine_sum (bmp280_cal s) (bmp280_ut s);;
        fine <- int32_of_f32 sum;;
        p <- bmp280_compensate_P (set_t_fine fine s) (bmp280_up s);;
        m1 <- (if is_null pressure then ret m
               else v <- int32_of_f32 p;; store pressure v m);;
        m2 <- (if is_null temperature then ret m1
               else ti <- int32_of_f32 (f32_div sum (f32_of_Z 5120));;
                    v <- mul_int32 ti 100;;
                    store temperature v m1);;
        ret (set_t_fine fine s, m2))
  /\ (forall a s' m',
        pressure = Some a -> temperature <> Some a ->
        bmp280_calculate s m pressure temperature = Ok (s', m') ->
        exists sum fine p v,
          T_fine_sum (bmp280_cal s) (bmp280_ut s) = Ok sum
          /\ int32_of_f32 sum = Ok fine
          /\ s' = set_t_fine fine s
          /\ t_fine (bmp280_cal s') = fine
          /\ bmp280_compensate_P (set_t_fine fine s) (bmp280_up s) = Ok p
          /\ int32_of_f32 p = Ok v
          /\ m' !! a = Some v).
Proof.
  assert (Heq : forall s0,
             bmp280_calculate s0 m pressure temperature
             = (sum <- T_fine_sum (bmp280_cal s0) (bmp280_ut s0);;
                fine <- int32_of_f32 sum;;
                p <- bmp280_compensate_P (set_t_fine fine s0) (bmp280_up s0);;
                m1 <- (if is_null pressure then ret m
                       else v <- int32_of_f32 p;; store pressure v m);;
                m2 <- (if is_null temperature then ret m1
                       else ti <- int32_of_f32 (f32_div sum (f32_of_Z 5120));;
                            v <- mul_int32 ti 100;;
                            store temperature v m1);;
                ret (set_t_fine fine s0, m2))).
  { intros s0. rewrite calculate_unfold.
    destruct (compensate_T_cases s0 (bmp280_ut s0)) as (sum & -> & ->).
    cbn [bind]. destruct (int32_of_f32 sum) as [fine|f]; reflexivity. }
  split; [|split].
  - rewrite !calculate_unfold.
    change (bmp280_ut (set_t_fine stale s)) with (bmp280_ut s).
    now rewrite compensate_T_ignores_t_fine.
  - apply Heq.
  - intros a s' m' -> Hpt. rewrite Heq.
    destruct (T_fine_sum (bmp280_cal s) (bmp280_ut s)) as [sum|f]; [|discriminate].
    cbn [bind].
    destruct (int32_of_f32 sum) as [fine|f] eqn:Efine; [|discriminate].
    cbn [bind].
    destruct (bmp280_compensate_P (set_t_fine fine s) (bmp280_up s)) as [p|f] eqn:EP;
      [|discriminate].
    cbn [bind is_null].
    destruct (int32_of_f32 p) as [v|f] eqn:Ev; [|discriminate].
    cbn [bind store].
    destruct temperature as [b|]; cbn [is_null bind ret].
    + destruct (int32_of_f32 (f32_div sum (f32_of_Z 5120))) as [ti|f]; [|discriminate].
      cbn [bind]. destruct (mul_int32 ti 100) as [w|f]; [|discriminate].
      cbn [bind store]. intros [= <- <-].
      exists sum, fine, p, v. repeat split; try assumption.
      rewrite lookup_insert_ne by congruence. apply lookup_insert_eq.
    + intros [= <- <-]. exists sum, fine, p, v. repeat split; try assumption.
      apply lookup_insert_eq.
Qed.

Lemma calculate_recomputes_t_fine_ref :
  bmp280_calculate (set_t_fine 999 ref_state) ∅ (Some 0) (Some 1)
  = Ok (set_t_fine 128422 ref_state, <[1 := 2500]> (<[0 := 100653]> ∅))
  /\ (exists p,
        bmp280_compensate_P (set_t_fine 128422 ref_state) 415148 = Ok p
        /\ int32_of_f32 p = Ok 100653)
  /\ (p <- bmp280_compensate_P (set_t_fine 999 ref_state) 415148;; int32_of_f32 p)
     <> Ok 100653.
Proof.
  destruct (calculate_recomputes_t_fine ref_state ∅ (Some 0) (Some 1) 999)
    as (Hstale & Hrun & Hpressure).
  assert (E : bmp280_calculate ref_state ∅ (Some 0) (Some 1)
              = Ok (set_t_fine 128422 ref_state, <[1 := 2500]> (<[0 := 100653]> ∅))).
  { rewrite Hrun. vm_compute. reflexivity. }
  split; [now rewrite Hstale|]. split.
  - destruct (Hpressure 0 _ _ eq_refl ltac:(discriminate) E)
      as (sum & fine & p & v & Hsum & Hfine & Hs & _ & Hp & Hv & Hm).
    assert (Ef : fine = 128422).
    { assert (Es : T_fine_sum (bmp280_cal ref_state) (bmp280_ut ref_state)
                   = Ok (S754_finite false 16438053 (-7))) by (vm_compute; reflexivity).
      rewrite Es in Hsum. injection Hsum as <-.
      assert (Ei : int32_of_f32 (S754_finite false 16438053 (-7)) = Ok 128422)
        by (vm_compute; reflexivity).
      rewrite Ei in Hfine. now injection Hfine as <-. }
    subst fine. exists p. split; [exact Hp|].
    rewrite lookup_insert_ne, lookup_insert_eq in Hm by discriminate.
    injection Hm as <-. exact Hv.
  - vm_compute. discriminate.
Defined.

(** ** Null output pointers *)

(** C10. [bmp280_calculate] never stores through a null pointer. With both
    pointers null it does what the temperature compensation does, leaving
    [t_fine] recomputed and the memory as it was; with only the pressure
    pointer null it still writes the temperature, and with only the
    temperature pointer null it still writes the pressure, in both cases
    after both compensations have run. *)
Theorem calculate_tolerates_null (s : state) (m : gmap Z Z) :
  (forall pressure temperature,
     bmp280_calculate s m pressure temperature <> Fault NullDeref)
  /\ bmp280_calculate s m None None
     = (r <- bmp280_compensate_T s (bmp280_ut s);; ret (snd r, m))
  /\ (forall a,
        bmp280_calculate s m None (Some a)
        = (r <- bmp280_compensate_T s (bmp280_ut s);;
           ti <- int32_of_f32 (fst r);;
           v <- mul_int32 ti 100;;
           ret (snd r, <[a := v]> m)))
  /\ (forall a,
        bmp280_calculate s m (Some a) None
        = (r <- bmp280_compensate_T s (bmp280_ut s);;
           p <- bmp280_compensate_P (snd r) (bmp280_up (snd r));;
           v <- int32_of_f32 p;;
           ret (snd r, <[a := v]> m)))
  /\ (forall t s1,
        bmp280_compensate_T s (bmp280_ut s) = Ok (t, s1) ->
        exists sum p,
          T_fine_sum (bmp280_cal s) (bmp280_ut s) = Ok sum
          /\ int32_of_f32 sum = Ok (t_fine (bmp280_cal s1))
          /\ bmp280_compensate_P s1 (bmp280_up s1) = Ok p).
Proof.
  split; [|split; [|split; [|split]]].
  - intros pressure temperature. rewrite calculate_unfold.
    destruct (bmp280_compensate_T s (bmp280_ut s)) as [[t s1]|f] eqn:ET.
    + cbn [bind fst snd].
      destruct (compensate_P_cases s1 (bmp280_up s1)) as (_ & _ & _ & p & ->).
      cbn [bind].
      destruct pressure as [a|], temperature as [b|];
        cbn [is_null]; unfold int32_of_f32, mul_int32, store, bind, ret;
        repeat first
          [ discriminate
          | match goal with
            | |- context [f32_trunc ?x] => destruct (f32_trunc x)
            | |- context [in_int32 ?x] => destruct (in_int32 x)
            end ].
    + destruct (compensate_T_cases s (bmp280_ut s)) as (sum & _ & E).
      rewrite E in ET. unfold bind, ret, int32_of_f32 in ET. cbn [bind].
      destruct (f32_trunc sum) as [z|]; [destruct (in_int32 z)|];
        try discriminate ET; injection ET as <-; discriminate.
  - rewrite calculate_unfold.
    destruct (bmp280_compensate_T s (bmp280_ut s)) as [[t s1]|f]; [|reflexivity].
    cbn [bind fst snd is_null].
    now destruct (compensate_P_cases s1 (bmp280_up s1)) as (_ & _ & _ & p & ->).
  - intros a. rewrite calculate_unfold.
    destruct (bmp280_compensate_T s (bmp280_ut s)) as [[t s1]|f]; [|reflexivity].
    cbn [bind fst snd is_null].
    destruct (compensate_P_cases s1 (bmp280_up s1)) as (_ & _ & _ & p & ->).
    cbn [bind ret]. destruct (int32_of_f32 t) as [ti|f]; [|reflexivity].
    cbn [bind]. now destruct (mul_int32 ti 100).
  - intros a. rewrite calculate_unfold.
    destruct (bmp280_compensate_T s (bmp280_ut s)) as [[t s1]|f]; [|reflexivity].
    cbn [bind fst snd is_null].
    destruct (bmp280_compensate_P s1 (bmp280_up s1)) as [p|f]; [|reflexivity].
    cbn [bind ret]. now destruct (int32_of_f32 p).
  - intros t s1 ET.
    destruct (compensate_T_sets_t_fine _ _ _ _ ET) as (sum & fine & Hsum & Hfine & ->).
    destruct (compensate_P_cases (set_t_fine fine s)
                (bmp280_up (set_t_fine fine s))) as (_ & _ & _ & p & EP).
    now exists sum, p.
Qed.

Lemma calculate_tolerates_null_ref :
  bmp280_calculate ref_state ∅ None None = Ok (set_t_fine 128422 ref_state, ∅)
  /\ bmp280_calculate ref_state ∅ None (Some 1)
     = Ok (set_t_fine 128422 ref_state, <[1 := 2500]> ∅)
  /\ bmp280_calculate ref_state ∅ (Some 0) None
     = Ok (set_t_fine 128422 ref_state, <[0 := 100653]> ∅).
Proof.
  destruct (calculate_tolerates_null ref_state ∅)
    as (_ & Hnone & Htemp & Hpres & _).
  split; [|split].
  - rewrite Hnone. vm_compute. reflexivity.
  - rewrite (Htemp 1). vm_compute. reflexivity.
  - rewrite (Hpres 0). vm_compute. reflexivity.
Defined.

(** ** The reference sample *)

(** C9. With [dig_T1 = 27504], [dig_T2 = 26435], [dig_T3 = -1000] and the
    raw temperature 519888, [bmp280_compensate_T] returns a float within
    0.01 of 25.08 and leaves in [t_fine] the truncation of [var1 + var2],
    which is 128422, the value of the data sheet. *)
Theorem compensate_T_reference (s : state) :
  dig_T1 (bmp280_cal s) = 27504 ->
  dig_T2 (bmp280_cal s) = 26435 ->
  dig_T3 (bmp280_cal s) = -1000 ->
  exists T sum q,
    bmp280_compensate_T s 519888 = Ok (T, set_t_fine 128422 s)
    /\ f32_to_Q T = Some q
    /\ (Qabs (q - (2508 # 100)) <= 1 # 100)%Q
    /\ T_fine_sum (bmp280_cal s) 519888 = Ok sum
    /\ int32_of_f32 sum = Ok 128422
    /\ t_fine (bmp280_cal (set_t_fine 128422 s)) = 128422.
Proof.
  destruct s as [cid init [T1 T2 T3 P1 P2 P3 P4 P5 P6 P7 P8 P9 fine] up ut log].
  cbn [bmp280_cal dig_T1 dig_T2 dig_T3]. intros -> -> ->.
  exists (S754_finite false 13150442 (-19)), (S754_finite false 16438053 (-7)),
    (13150442 # 524288)%Q.
  repeat split; try (vm_compute; reflexivity).
  vm_compute. discriminate.
Qed.

Lemma compensate_T_reference_ref :
  exists T sum q,
    bmp280_compensate_T ref_state 519888 = Ok (T, set_t_fine 128422 ref_state)
    /\ f32_to_Q T = Some q
    /\ (Qabs (q - (2508 # 100)) <= 1 # 100)%Q
    /\ T_fine_sum (bmp280_cal ref_state) 519888 = Ok sum
    /\ int32_of_f32 sum = Ok 128422
    /\ t_fine (bmp280_cal (set_t_fine 128422 ref_state)) = 128422.
Proof.
  apply (compensate_T_reference ref_state); reflexivity.
Defined.

(** ** Temperature output *)

(** Every temperature [bmp280_calculate] stores is a whole number of degrees
    times 100. *)
Lemma calculate_temperature_whole_degrees
    (s s' : state) (m m' : gmap Z Z) (pressure : ptr) (a : Z) :
  bmp280_calculate s m pressure (Some a) = Ok (s', m') ->
  exists t ti,
    bmp280_compensate_T s (bmp280_ut s) = Ok (t, s')
    /\ int32_of_f32 t = Ok ti
    /\ m' !! a = Some (ti * 100).
Proof.
  rewrite calculate_unfold.
  destruct (bmp280_compensate_T s (bmp280_ut s)) as [[t s1]|f]; [|discriminate].
  cbn [bind fst snd].
  destruct (bmp280_compensate_P s1 (bmp280_up s1)) as [p|f]; [|discriminate].
  cbn [bind].
  destruct (if is_null pressure then ret m
            else v <- int32_of_f32 p;; store pressure v m) as [m1|f];
    [|discriminate].
  cbn [bind is_null].
  destruct (int32_of_f32 t) as [ti|f] eqn:Eti; [|discriminate].
  cbn [bind]. unfold mul_int32.
  destruct (in_int32 (ti * 100)); [|discriminate].
  cbn [bind store ret]. intros [= <- <-].
  exists t, ti. split; [reflexivity|]. split; [exact Eti|].
  apply lookup_insert_eq.
Qed.

(** C1, on the reference sample: the compensated temperature is about
    25.08 degrees, which is 2508 hundredths, and [bmp280_calculate] stores
    2500: the cast binds tighter than the product, so the float is truncated
    to whole degrees before it is scaled. *)
Theorem calculate_temperature_reference :
  exists T s' m',
    bmp280_compensate_T ref_state (bmp280_ut ref_state) = Ok (T, s')
    /\ centi_of_f32 T = Ok 2508
    /\ bmp280_calculate ref_state ∅ None (Some 0) = Ok (s', m')
    /\ m' !! 0 = Some 2500.
Proof.
  exists (S754_finite false 13150442 (-19)), (set_t_fine 128422 ref_state),
    (<[0 := 2500]> ∅).
  repeat split; try (vm_compute; reflexivity).
Qed.

(** * Further properties of the driver *)

(** ** Bit fields *)

Lemma lor_shiftl_add (hi lo k : Z) :
  0 <= k -> 0 <= lo < 2 ^ k -> Z.lor (Z.shiftl hi k) lo = hi * 2 ^ k + lo.
Proof.
  intros Hk Hlo.
  assert (Hland : Z.land (Z.shiftl hi k) lo = 0).
  { apply Z.bits_inj'. intros n Hn.
    rewrite Z.land_spec, Z.bits_0.
    destruct (Z.lt_ge_cases n k) as [Hlt|Hge].
    - now rewrite Z.shiftl_spec_low.
    - rewrite Bool.andb_comm.
      destruct (Z.eq_dec lo 0) as [->|Hne]; [now rewrite Z.bits_0|].
      rewrite (Z.bits_above_log2 lo n); [reflexivity|lia|].
      apply Z.lt_le_trans with k; [|exact Hge].
      apply Z.log2_lt_pow2; lia. }
  rewrite <- Z.lxor_lor, <- Z.add_nocarry_lxor by exact Hland.
  now rewrite Z.shiftl_mul_pow2.
Qed.

Lemma u8_nibble (b : Byte.byte) : 0 <= Z.shiftr (u8 b) 4 < 16.
Proof.
  pose proof (u8_range b). rewrite Z.shiftr_div_pow2 by lia.
  change (2 ^ 4) with 16. Z.div_mod_to_equations. lia.
Qed.

Lemma raw20_sum (msb lsb xlsb : Byte.byte) :
  raw20 msb lsb xlsb = u8 msb * 4096 + u8 lsb * 16 + Z.shiftr (u8 xlsb) 4.
Proof.
  destruct (raw20_plain msb lsb xlsb) as [-> _].
  pose proof (u8_range msb). pose proof (u8_range lsb).
  pose proof (u8_nibble xlsb).
  rewrite (Z.shiftl_mul_pow2 (u8 lsb)) by lia. change (2 ^ 4) with 16.
  rewrite lor_shiftl_add by (change (2 ^ 12) with 4096; lia).
  change (2 ^ 12) with 4096.
  replace (u8 msb * 4096 + u8 lsb * 16)
    with (Z.shiftl (u8 msb * 256 + u8 lsb) 4)
    by (rewrite Z.shiftl_mul_pow2 by lia; change (2 ^ 4) with 16; lia).
  rewrite lor_shiftl_add by (change (2 ^ 4) with 16; lia).
  rewrite Z.shiftl_mul_pow2 by lia. change (2 ^ 4) with 16. lia.
Qed.

(** X1. The raw sample [bmp280_get_up] packs can be taken apart again: its
    bits 12..19 are the MSB byte, its bits 4..11 the LSB byte, its bits 0..3
    the high nibble of the XLSB byte. The low nibble of XLSB is dropped, and
    two triplets give the same sample exactly when they agree on everything
    else. *)
Theorem raw20_fields (msb lsb xlsb : Byte.byte) :
  Z.shiftr (raw20 msb lsb xlsb) 12 = u8 msb
  /\ Z.land (Z.shiftr (raw20 msb lsb xlsb) 4) 255 = u8 lsb
  /\ Z.land (raw20 msb lsb xlsb) 15 = Z.shiftr (u8 xlsb) 4
  /\ (forall msb' lsb' xlsb',
        raw20 msb lsb xlsb = raw20 msb' lsb' xlsb'
        <-> msb = msb' /\ lsb = lsb'
            /\ Z.shiftr (u8 xlsb) 4 = Z.shiftr (u8 xlsb') 4).
Proof.
  assert (Hfields : forall a b c,
             Z.shiftr (raw20 a b c) 12 = u8 a
             /\ Z.land (Z.shiftr (raw20 a b c) 4) 255 = u8 b
             /\ Z.land (raw20 a b c) 15 = Z.shiftr (u8 c) 4).
  { intros a b c. rewrite raw20_sum.
    pose proof (u8_range a). pose proof (u8_range b). pose proof (u8_nibble c).
    set (n := Z.shiftr (u8 c) 4) in *. clearbody n.
    change 255 with (Z.ones 8). change 15 with (Z.ones 4).
    rewrite !Z.land_ones, !Z.shiftr_div_pow2 by lia.
    change (2 ^ 12) with 4096. change (2 ^ 8) with 256. change (2 ^ 4) with 16.
    repeat split; Z.div_mod_to_equations; lia. }
  destruct (Hfields msb lsb xlsb) as (H1 & H2 & H3).
  split; [exact H1|]. split; [exact H2|]. split; [exact H3|].
  intros msb' lsb' xlsb'. destruct (Hfields msb' lsb' xlsb') as (H1' & H2' & H3').
  split.
  - intros E. rewrite E in H1, H2, H3.
    assert (Hinj : forall x y, u8 x = u8 y -> x = y).
    { intros x y Hxy. unfold u8 in Hxy. apply N2Z.inj in Hxy.
      apply (f_equal Byte.of_N) in Hxy. rewrite !Byte.of_to_N in Hxy.
      congruence. }
    repeat split; [apply Hinj|apply Hinj|]; congruence.
  - intros (-> & -> & E). rewrite !raw20_sum. now rewrite E.
Qed.

(** X2. The control word: for a pressure code and a temperature code of
    three bits and a mode of two, [osr_p << 2 | osr_t << 5 | mode] is a byte
    from which the three fields are read back at bits 2..4, 5..7 and 0..1;
    [BMP280_MODE] is this word for pressure x8, temperature x1 and forced
    mode, 0x31, and it is what [bmp280_start_up] writes to the control
    register. *)
Theorem ctrl_meas_pack_fields :
  (forall osr_p osr_t mode,
     0 <= osr_p < 8 -> 0 <= osr_t < 8 -> 0 <= mode < 4 ->
     0 <= ctrl_meas_pack osr_p osr_t mode < 256
     /\ Z.land (Z.shiftr (ctrl_meas_pack osr_p osr_t mode) 2) 7 = osr_p
     /\ Z.land (Z.shiftr (ctrl_meas_pack osr_p osr_t mode) 5) 7 = osr_t
     /\ Z.land (ctrl_meas_pack osr_p osr_t mode) 3 = mode)
  /\ BMP280_MODE
     = ctrl_meas_pack BMP280_PRESSURE_OSR BMP280_TEMPERATURE_OSR BMP280_FORCED_MODE
  /\ BMP280_MODE = 0x31
  /\ (forall s,
        bus_log (bmp280_start_up s)
        = EvWrite BMP280_I2C_ADDR BMP280_CTRL_MEAS_REG
            (ctrl_meas_pack BMP280_OVERSAMP_8X BMP280_OVERSAMP_1X BMP280_FORCED_MODE)
          :: bus_log s).
Proof.
  split; [|repeat split].
  intros p t mode Hp Ht Hm. unfold ctrl_meas_pack.
  rewrite (Z.lor_comm (Z.shiftl p 2)), (Z.shiftl_mul_pow2 p) by lia.
  change (2 ^ 2) with 4.
  rewrite lor_shiftl_add by (change (2 ^ 5) with 32; lia).
  change (2 ^ 5) with 32.
  replace (t * 32 + p * 4) with (Z.shiftl (t * 8 + p) 2)
    by (rewrite Z.shiftl_mul_pow2 by lia; change (2 ^ 2) with 4; lia).
  rewrite lor_shiftl_add by (change (2 ^ 2) with 4; lia).
  change (2 ^ 2) with 4.
  change 3 with (Z.ones 2). change 7 with (Z.ones 3).
  rewrite !Z.land_ones, !Z.shiftr_div_pow2 by lia.
  change (2 ^ 2) with 4. change (2 ^ 3) with 8. change (2 ^ 5) with 32.
  repeat split; Z.div_mod_to_equations; lia.
Qed.

Lemma ctrl_meas_pack_fields_configured :
  Z.land (Z.shiftr BMP280_MODE 2) 7 = BMP280_OVERSAMP_8X
  /\ Z.land (Z.shiftr BMP280_MODE 5) 7 = BMP280_OVERSAMP_1X
  /\ Z.land BMP280_MODE 3 = BMP280_FORCED_MODE.
Proof.
  destruct ctrl_meas_pack_fields as (Hfields & -> & _).
  destruct (Hfields BMP280_PRESSURE_OSR BMP280_TEMPERATURE_OSR BMP280_FORCED_MODE)
    as (_ & Hp & Ht & Hm); [vm_compute; intuition discriminate ..|].
  split; [exact Hp|]. split; [exact Ht|exact Hm].
Defined.

(** ** Latency *)

(** X3. The sampling count [(1 << osr) >> 1] is 0 for the code "skipped" and
    [2 ^ (osr - 1)] for every other code, so the codes named 1X, 2X, 4X, 8X
    and 16X count 1, 2, 4, 8 and 16 samples; and the count never decreases
    with the code. *)
Theorem osrs_count_multiplier :
  osrs_count BMP280_OVERSAMP_SKIPPED = 0
  /\ (forall osr, 1 <= osr -> osrs_count osr = 2 ^ (osr - 1))
  /\ osrs_count BMP280_OVERSAMP_1X = 1
  /\ osrs_count BMP280_OVERSAMP_2X = 2
  /\ osrs_count BMP280_OVERSAMP_4X = 4
  /\ osrs_count BMP280_OVERSAMP_8X = 8
  /\ osrs_count BMP280_OVERSAMP_16X = 16
  /\ (forall osr osr', 0 <= osr <= osr' -> osrs_count osr <= osrs_count osr').
Proof.
  repeat split; try reflexivity.
  - intros osr H. now apply osrs_count_pow2.
  - intros osr osr' H.
    destruct (Z.eq_dec osr 0) as [->|Hne].
    + rewrite osrs_count_0. apply osrs_count_nonneg. lia.
    + rewrite !osrs_count_pow2 by lia. apply Z.pow_le_mono_r; lia.
Qed.

(** X4. The latency is the sum of the timing constants, in sixteenths of a
    millisecond, rounded up to whole milliseconds and given in
    microseconds: it is a multiple of 1000, never below the sum and less
    than one millisecond above it. *)
Theorem up_delay_rounds_up (osr_t osr_p : Z) :
  0 <= osr_t -> 0 <= osr_p ->
  up_delay_of osr_t osr_p = (latency_ticks osr_t osr_p + 15) / 16 * 1000
  /\ up_delay_of osr_t osr_p mod 1000 = 0
  /\ 1000 * latency_ticks osr_t osr_p <= 16 * up_delay_of osr_t osr_p
  /\ 16 * up_delay_of osr_t osr_p < 1000 * latency_ticks osr_t osr_p + 16000.
Proof.
  intros Ht Hp.
  pose proof (osrs_count_nonneg osr_t Ht) as Hct.
  pose proof (osrs_count_nonneg osr_p Hp) as Hcp.
  assert (Hticks : 0 <= latency_ticks osr_t osr_p).
  { unfold latency_ticks, T_INIT_MAX, T_MEASURE_PER_OSRS_MAX, T_SETUP_PRESSURE_MAX.
    destruct (osr_p =? 0); lia. }
  assert (E : up_delay_of osr_t osr_p = (latency_ticks osr_t osr_p + 15) / 16 * 1000).
  { unfold up_delay_of. fold (latency_ticks osr_t osr_p).
    now rewrite Z.quot_div_nonneg by lia. }
  rewrite E. set (n := latency_ticks osr_t osr_p) in *. clearbody n.
  split; [reflexivity|]. split; [now apply Z.mod_mul|].
  Z.div_mod_to_equations. lia.
Qed.

Lemma up_delay_rounds_up_configured :
  latency_ticks BMP280_TEMPERATURE_OSR BMP280_PRESSURE_OSR = 363
  /\ up_delay_of BMP280_TEMPERATURE_OSR BMP280_PRESSURE_OSR = 23000
  /\ 1000 * 363 <= 16 * up_delay_of BMP280_TEMPERATURE_OSR BMP280_PRESSURE_OSR.
Proof.
  destruct (up_delay_rounds_up BMP280_TEMPERATURE_OSR BMP280_PRESSURE_OSR)
    as (E & _ & Hlow & _); [vm_compute; discriminate ..|].
  split; [reflexivity|]. split; [rewrite E; reflexivity|exact Hlow].
Defined.

(** ** The calibration block *)

Lemma u16_le_sum (lo hi : Byte.byte) : u16_le lo hi = u8 lo + 256 * u8 hi.
Proof.
  unfold u16_le. pose proof (u8_range lo). rewrite Z.lor_comm.
  rewrite lor_shiftl_add by (change (2 ^ 8) with 256; lia).
  change (2 ^ 8) with 256. lia.
Qed.

Lemma u16_le_range (lo hi : Byte.byte) : is_uint16 (u16_le lo hi).
Proof.
  rewrite u16_le_sum. pose proof (u8_range lo). pose proof (u8_range hi).
  unfold is_uint16. lia.
Qed.

Lemma s16_le_spec (lo hi : Byte.byte) :
  is_int16 (s16_le lo hi) /\ s16_le lo hi mod 65536 = u8 lo + 256 * u8 hi.
Proof.
  unfold s16_le, is_int16. rewrite u16_le_sum.
  pose proof (u8_range lo). pose proof (u8_range hi).
  change (2 ^ 15) with 32768. change (2 ^ 16) with 65536.
  destruct (Z.ltb_spec (u8 lo + 256 * u8 hi) 32768);
    (split; [lia|Z.div_mod_to_equations; lia]).
Qed.

Lemma u16_le_mod (lo hi : Byte.byte) :
  u16_le lo hi mod 65536 = u8 lo + 256 * u8 hi.
Proof.
  rewrite u16_le_sum. pose proof (u8_range lo). pose proof (u8_range hi).
  apply Z.mod_small. lia.
Qed.

Lemma load_calib_in_range (d : list Byte.byte) (c : bmp280_calib_param_t) :
  calib_in_range (load_calib d c).
Proof.
  unfold calib_in_range, load_calib.
  cbn [dig_T1 dig_T2 dig_T3 dig_P1 dig_P2 dig_P3 dig_P4 dig_P5 dig_P6 dig_P7
       dig_P8 dig_P9].
  repeat split; first [apply u16_le_range | apply s16_le_spec].
Qed.

Lemma load_calib_field (d : list Byte.byte) (c : bmp280_calib_param_t) (i : nat) :
  (i < 12)%nat ->
  nth i (calib_fields (load_calib d c)) 0 mod 65536
  = u8 (nth (2 * i) d Byte.x00) + 256 * u8 (nth (2 * i + 1) d Byte.x00).
Proof.
  intros Hi. unfold calib_fields, load_calib.
  cbn [dig_T1 dig_T2 dig_T3 dig_P1 dig_P2 dig_P3 dig_P4 dig_P5 dig_P6 dig_P7
       dig_P8 dig_P9].
  do 12 (destruct i as [|i];
         [cbn [nth Nat.mul Nat.add]; first [apply u16_le_mod | apply s16_le_spec]|]).
  lia.
Qed.

Section DetectionStates.

Variable device : list bus_event -> Z -> Z -> Byte.byte.


Lemma detect_success_state (s : state) (baro : baro_t) :
  bmp280InitDone s = false ->
  identity_read device s = BMP280_DEFAULT_CHIP_ID ->
  bmp280Detect device s baro
  = (true,
     mk_state BMP280_DEFAULT_CHIP_ID true (load_calib (calib_answer device s) (bmp280_cal s))
       (bmp280_up s) (bmp280_ut s)
       (EvWrite BMP280_I2C_ADDR BMP280_CTRL_MEAS_REG BMP280_MODE
        :: EvRead BMP280_I2C_ADDR BMP280_TEMPERATURE_CALIB_DIG_T1_LSB_REG 24
        :: EvRead BMP280_I2C_ADDR BMP280_CHIP_ID_REG 1
        :: EvDelay 20 :: bus_log s),
     mk_baro 0 (up_delay_of BMP280_TEMPERATURE_OSR BMP280_PRESSURE_OSR)
       fp_bmp280_start_ut fp_bmp280_get_ut
       fp_bmp280_start_up fp_bmp280_get_up fp_bmp280_calculate).
Proof.
  destruct s as [cid init cal up ut log]. unfold identity_read, calib_answer.
  cbn [bus_log bmp280InitDone bmp280_cal bmp280_up bmp280_ut].
  intros -> Hid.
  unfold bmp280Detect, i2cRead, i2cWrite, delay, set_chip_id, set_cal,
    set_InitDone, log_event.
  cbn [bus_log bmp280InitDone bmp280_cal bmp280_up bmp280_ut bmp280_chip_id].
  change (nth 0 (map ?f (seq 0 1)) Byte.x00) with (f 0%nat). cbv beta.
  change (BMP280_CHIP_ID_REG + Z.of_nat 0) with BMP280_CHIP_ID_REG.
  rewrite Hid.
  change (negb (BMP280_DEFAULT_CHIP_ID =? BMP280_DEFAULT_CHIP_ID)) with false.
  reflexivity.
Qed.

Lemma detect_outcome (s s' : state) (baro baro' : baro_t) :
  bmp280InitDone s = false ->
  bmp280Detect device s baro = (true, s', baro') ->
  identity_read device s = BMP280_DEFAULT_CHIP_ID.
Proof.
  intros Hinit Hrun.
  destruct (Z.eq_dec (identity_read device s) BMP280_DEFAULT_CHIP_ID) as [E|E];
    [exact E|].
  rewrite (detect_mismatch device s baro Hinit E) in Hrun. discriminate.
Qed.

(** X5. A successful first [bmp280Detect] leaves in [bmp280_cal] the twelve
    coefficients of the 24 bytes the device answered, two bytes each with
    the least significant first, every one within the range of its C type
    (two unsigned, ten signed 16-bit); [t_fine] and the raw samples are as
    they were, the identity stored is 0x58 and the driver is initialised. *)
Theorem detect_loads_calibration (s s' : state) (baro baro' : baro_t) :
  bmp280InitDone s = false ->
  bmp280Detect device s baro = (true, s', baro') ->
  calib_in_range (bmp280_cal s')
  /\ (forall i, (i < 12)%nat ->
        nth i (calib_fields (bmp280_cal s')) 0 mod 65536
        = u8 (nth (2 * i) (calib_answer device s) Byte.x00)
          + 256 * u8 (nth (2 * i + 1) (calib_answer device s) Byte.x00))
  /\ length (calib_answer device s) = 24%nat
  /\ t_fine (bmp280_cal s') = t_fine (bmp280_cal s)
  /\ bmp280_up s' = bmp280_up s
  /\ bmp280_ut s' = bmp280_ut s
  /\ bmp280_chip_id s' = BMP280_DEFAULT_CHIP_ID
  /\ bmp280InitDone s' = true.
Proof.
  intros Hinit Hrun.
  pose proof (detect_outcome _ _ _ _ Hinit Hrun) as Hid.
  rewrite (detect_success_state s baro Hinit Hid) in Hrun.
  injection Hrun as <- _.
  cbn [bmp280_cal bmp280_up bmp280_ut bmp280_chip_id bmp280InitDone].
  split; [apply load_calib_in_range|].
  split; [intros i Hi; now apply load_calib_field|].
  repeat split.
Qed.

(** X6. A successful first [bmp280Detect] sets all seven fields of the
    capability structure, whatever it held; but once the driver is
    initialised, a call returns true without touching the structure it is
    handed, so a structure passed in afterwards stays as it was, for any
    number of calls. *)
Theorem detect_fills_baro_once (s s1 : state) (baro baro1 : baro_t) :
  bmp280InitDone s = false ->
  bmp280Detect device s baro = (true, s1, baro1) ->
  baro1 = mk_baro 0 23000 fp_bmp280_start_ut fp_bmp280_get_ut
            fp_bmp280_start_up fp_bmp280_get_up fp_bmp280_calculate
  /\ (forall other n,
        detect_calls device n s1 other = (repeat true n, s1, other)).
Proof.
  intros Hinit Hrun.
  pose proof (detect_outcome _ _ _ _ Hinit Hrun) as Hid.
  rewrite (detect_success_state s baro Hinit Hid) in Hrun.
  injection Hrun as <- <-. split; [reflexivity|].
  intros other n. now apply detect_calls_initialized.
Qed.

Lemma concat_repeat_comm {A : Type} (x : list A) (n : nat) :
  concat (repeat x n) ++ x = x ++ concat (repeat x n).
Proof.
  induction n as [|n IH]; cbn [repeat concat].
  - now rewrite app_nil_r.
  - now rewrite <- app_assoc, IH.
Qed.

(** X7. A failure of [bmp280Detect] is not remembered. While the device
    does not show the identity 0x58, each of any number of calls waits 20 ms
    again, reads the identity register again, stores the byte it has read
    in [bmp280_chip_id] and returns false; the driver is then exactly as it
    was but for that byte and the log, and the capability structure is
    untouched. A call after a failure succeeds as soon as the identity byte
    it reads is 0x58. *)
Theorem detect_failure_not_cached :
  (forall s baro n,
     bmp280InitDone s = false ->
     (forall log, u8 (device log BMP280_I2C_ADDR BMP280_CHIP_ID_REG)
                  <> BMP280_DEFAULT_CHIP_ID) ->
     detect_calls device n s baro
     = (repeat false n,
        mk_state (chip_id_after_failures device n s) false
          (bmp280_cal s) (bmp280_up s) (bmp280_ut s)
          (concat (repeat [EvRead BMP280_I2C_ADDR BMP280_CHIP_ID_REG 1; EvDelay 20] n)
           ++ bus_log s),
        baro)
     /\ ((0 < n)%nat ->
         chip_id_after_failures device n s <> BMP280_DEFAULT_CHIP_ID))
  /\ (forall s s' baro baro',
        bmp280InitDone s = false ->
        bmp280Detect device s baro = (false, s', baro') ->
        bmp280_chip_id s' = identity_read device s
        /\ (identity_read device s' = BMP280_DEFAULT_CHIP_ID ->
            exists s'' baro'',
              bmp280Detect device s' baro' = (true, s'', baro'')
              /\ bmp280InitDone s'' = true
              /\ bmp280_chip_id s'' = BMP280_DEFAULT_CHIP_ID)).
Proof.
  split.
  - intros s baro n Hinit Hdev. split.
    + revert s Hinit. induction n as [|n IH]; intros s Hinit.
      * destruct s as [cid init cal up ut log]. cbn in Hinit. subst init.
        reflexivity.
      * cbn [detect_calls repeat].
        rewrite (detect_mismatch device s baro Hinit (Hdev _)).
        set (s1 := mk_state _ _ _ _ _ _).
        rewrite (IH s1 eq_refl). subst s1.
        cbn [bmp280_cal bmp280_up bmp280_ut bus_log concat].
        assert (Hlog : concat (repeat [EvRead BMP280_I2C_ADDR BMP280_CHIP_ID_REG 1;
                                       EvDelay 20] n)
                       ++ EvRead BMP280_I2C_ADDR BMP280_CHIP_ID_REG 1
                          :: EvDelay 20 :: bus_log s
                       = [EvRead BMP280_I2C_ADDR BMP280_CHIP_ID_REG 1; EvDelay 20]
                         ++ concat (repeat [EvRead BMP280_I2C_ADDR BMP280_CHIP_ID_REG 1;
                                            EvDelay 20] n)
                         ++ bus_log s).
        { change (EvRead BMP280_I2C_ADDR BMP280_CHIP_ID_REG 1 :: EvDelay 20 :: bus_log s)
            with ([EvRead BMP280_I2C_ADDR BMP280_CHIP_ID_REG 1; EvDelay 20] ++ bus_log s).
          now rewrite !app_assoc, concat_repeat_comm. }
        rewrite Hlog. do 2 f_equal. f_equal.
        destruct n as [|k]; [reflexivity|].
        unfold chip_id_after_failures. cbn [bus_log].
        do 3 f_equal.
        change (EvRead BMP280_I2C_ADDR BMP280_CHIP_ID_REG 1 :: EvDelay 20 :: bus_log s)
          with ([EvRead BMP280_I2C_ADDR BMP280_CHIP_ID_REG 1; EvDelay 20] ++ bus_log s).
        cbn [repeat concat].
        now rewrite !app_assoc, concat_repeat_comm.
    + intros Hn. destruct n as [|k]; [lia|]. apply Hdev.
  - intros s s' baro baro' Hinit Hrun.
    destruct (Z.eq_dec (identity_read device s) BMP280_DEFAULT_CHIP_ID) as [E|E].
    + rewrite (detect_success_state s baro Hinit E) in Hrun. discriminate.
    + rewrite (detect_mismatch device s baro Hinit E) in Hrun.
      injection Hrun as <- _. split; [reflexivity|]. intros Hid.
      eexists _, _. split; [now apply detect_success_state|]. split; reflexivity.
Qed.

End DetectionStates.

Lemma detect_loads_calibration_ref :
  bmp280_cal (bmp280Detect ref_device boot_state empty_baro).1.2 = ref_cal
  /\ calib_in_range (bmp280_cal (bmp280Detect ref_device boot_state empty_baro).1.2)
  /\ bmp280InitDone (bmp280Detect ref_device boot_state empty_baro).1.2 = true.
Proof.
  set (r := bmp280Detect ref_device boot_state empty_baro).
  assert (E : r = (true, r.1.2, r.2)) by reflexivity.
  destruct (detect_loads_calibration ref_device boot_state r.1.2 empty_baro r.2
              eq_refl E)
    as (Hrange & _ & _ & _ & _ & _ & _ & Hinit).
  split; [reflexivity|]. split; [exact Hrange|exact Hinit].
Defined.

Lemma detect_fills_baro_once_boot :
  (bmp280Detect bmp280_device boot_state empty_baro).2
  = mk_baro 0 23000 fp_bmp280_start_ut fp_bmp280_get_ut
      fp_bmp280_start_up fp_bmp280_get_up fp_bmp280_calculate
  /\ detect_calls bmp280_device 3
       (bmp280Detect bmp280_device boot_state empty_baro).1.2 empty_baro
     = ([true; true; true],
        (bmp280Detect bmp280_device boot_state empty_baro).1.2, empty_baro).
Proof.
  set (r := bmp280Detect bmp280_device boot_state empty_baro).
  assert (E : r = (true, r.1.2, r.2)) by reflexivity.
  destruct (detect_fills_baro_once bmp280_device boot_state r.1.2 empty_baro r.2
              eq_refl E)
    as (Hbaro & Hcalls).
  split; [exact Hbaro|exact (Hcalls empty_baro 3%nat)].
Defined.

Lemma detect_failure_not_cached_devices :
  detect_calls other_chip_device 3 boot_state empty_baro
  = ([false; false; false],
     mk_state 0x60 false (bmp280_cal boot_state) 0 0
       [EvRead BMP280_I2C_ADDR BMP280_CHIP_ID_REG 1; EvDelay 20;
        EvRead BMP280_I2C_ADDR BMP280_CHIP_ID_REG 1; EvDelay 20;
        EvRead BMP280_I2C_ADDR BMP280_CHIP_ID_REG 1; EvDelay 20],
     empty_baro)
  /\ bmp280_chip_id (bmp280Detect late_device boot_state empty_baro).1.2 = 0
  /\ (exists s2 baro2,
        bmp280Detect late_device
          (bmp280Detect late_device boot_state empty_baro).1.2 empty_baro
        = (true, s2, baro2)
        /\ bmp280_chip_id s2 = 0x58).
Proof.
  split; [|split].
  - destruct (proj1 (detect_failure_not_cached other_chip_device)
                boot_state empty_baro 3%nat eq_refl) as (Hcalls & _);
      [intros log; vm_compute; discriminate|].
    exact Hcalls.
  - set (r := bmp280Detect late_device boot_state empty_baro).
    assert (E : r = (false, r.1.2, r.2)) by reflexivity.
    destruct (proj2 (detect_failure_not_cached late_device)
                boot_state r.1.2 empty_baro r.2 eq_refl E) as (Hid & _).
    exact Hid.
  - set (r := bmp280Detect late_device boot_state empty_baro).
    assert (E : r = (false, r.1.2, r.2)) by reflexivity.
    destruct (proj2 (detect_failure_not_cached late_device)
                boot_state r.1.2 empty_baro r.2 eq_refl E) as (_ & Hretry).
    destruct (Hretry eq_refl) as (s2 & baro2 & Hrun & _ & Hchip).
    exists s2, baro2. split; [exact Hrun|exact Hchip].
Defined.

(** ** One measurement *)

Lemma calculate_final_state
    (s s' : state) (m m' : gmap Z Z) (pressure temperature : ptr) :
  bmp280_calculate s m pressure temperature = Ok (s', m') ->
  exists fine, s' = set_t_fine fine s.
Proof.
  rewrite calculate_unfold.
  destruct (bmp280_compensate_T s (bmp280_ut s)) as [[t s1]|f] eqn:ET;
    [|discriminate].
  destruct (compensate_T_sets_t_fine _ _ _ _ ET) as (sum & fine & _ & _ & ->).
  cbn [bind fst snd].
  destruct (bmp280_compensate_P _ _) as [p|f]; [|discriminate]. cbn [bind].
  destruct (if is_null pressure then _ else _) as [m1|f]; [|discriminate].
  cbn [bind].
  destruct (if is_null temperature then _ else _) as [m2|f]; [|discriminate].
  cbn [bind ret]. intros [= <- <-]. now exists fine.
Qed.

(** X8. One measurement, [bmp280_start_up] then [bmp280_get_up] then
    [bmp280_calculate], puts exactly two transactions on the bus: the write
    of the control word and, after it, the read of the six bytes from 0xF7.
    The raw samples are decoded from what the device answers after the
    write; initialisation flag, identity and calibration are as before; the
    temperature channel's start and get change nothing; and the calculation
    adds no bus traffic and changes nothing of the driver but [t_fine]. *)
Theorem measurement_cycle
    (device : list bus_event -> Z -> Z -> Byte.byte) (s : state) :
  let s2 := bmp280_get_up device (bmp280_start_up s) in
  let frame i :=
    device (EvWrite BMP280_I2C_ADDR BMP280_CTRL_MEAS_REG BMP280_MODE :: bus_log s)
      BMP280_I2C_ADDR (BMP280_PRESSURE_MSB_REG + i) in
  bus_log s2
  = [EvRead BMP280_I2C_ADDR BMP280_PRESSURE_MSB_REG 6;
     EvWrite BMP280_I2C_ADDR BMP280_CTRL_MEAS_REG BMP280_MODE] ++ bus_log s
  /\ bmp280_up s2 = raw20 (frame 0) (frame 1) (frame 2)
  /\ bmp280_ut s2 = raw20 (frame 3) (frame 4) (frame 5)
  /\ bmp280_cal s2 = bmp280_cal s
  /\ bmp280InitDone s2 = bmp280InitDone s
  /\ bmp280_chip_id s2 = bmp280_chip_id s
  /\ bmp280_get_up device (bmp280_start_up (bmp280_get_ut (bmp280_start_ut s))) = s2
  /\ (forall m pressure temperature s3 m3,
        bmp280_calculate s2 m pressure temperature = Ok (s3, m3) ->
        bus_log s3 = bus_log s2
        /\ bmp280_up s3 = bmp280_up s2 /\ bmp280_ut s3 = bmp280_ut s2
        /\ calib_fields (bmp280_cal s3) = calib_fields (bmp280_cal s2)
        /\ bmp280InitDone s3 = bmp280InitDone s2
        /\ bmp280_chip_id s3 = bmp280_chip_id s2).
Proof.
  intros s2 frame. subst s2 frame.
  do 7 (split; [reflexivity|]).
  intros m pressure temperature s3 m3 Hrun.
  destruct (calculate_final_state _ _ _ _ _ _ Hrun) as (fine & ->).
  repeat split.
Qed.

(** ** Storing both outputs *)

(** X9. With both pointers non-null and every conversion in range,
    [bmp280_calculate] stores the pressure first and the temperature
    second: the temperature cell holds the temperature, the pressure cell
    holds the pressure unless it is the same cell, and no other cell of the
    memory changes. *)
Theorem calculate_stores_both
    (s s1 : state) (m : gmap Z Z) (a b : Z) (t p : float32) (pv ti v : Z) :
  bmp280_compensate_T s (bmp280_ut s) = Ok (t, s1) ->
  bmp280_compensate_P s1 (bmp280_up s1) = Ok p ->
  int32_of_f32 p = Ok pv ->
  int32_of_f32 t = Ok ti ->
  mul_int32 ti 100 = Ok v ->
  exists m',
    bmp280_calculate s m (Some a) (Some b) = Ok (s1, m')
    /\ m' !! b = Some v
    /\ (a <> b -> m' !! a = Some pv)
    /\ (forall c, c <> a -> c <> b -> m' !! c = m !! c).
Proof.
  intros ET EP Hpv Hti Hv. exists (<[b := v]> (<[a := pv]> m)).
  split; [|split; [|split]].
  - rewrite calculate_unfold, ET. cbn [bind fst snd]. rewrite EP.
    cbn [bind is_null]. rewrite Hpv. cbn [bind store]. rewrite Hti.
    cbn [bind]. rewrite Hv. reflexivity.
  - apply lookup_insert_eq.
  - intros Hab. rewrite lookup_insert_ne by congruence. apply lookup_insert_eq.
  - intros c Hca Hcb. now rewrite !lookup_insert_ne by congruence.
Qed.

Lemma calculate_stores_both_ref :
  (exists m', bmp280_calculate ref_state ∅ (Some 0) (Some 1) = Ok (set_t_fine 128422 ref_state, m')
              /\ m' !! 1 = Some 2500 /\ m' !! 0 = Some 100653)
  /\ (exists m', bmp280_calculate ref_state ∅ (Some 0) (Some 0) = Ok (set_t_fine 128422 ref_state, m')
               /\ m' !! 0 = Some 2500).
Proof.
  assert (ET : bmp280_compensate_T ref_state (bmp280_ut ref_state)
               = Ok (S754_finite false 13150442 (-19), set_t_fine 128422 ref_state))
    by (vm_compute; reflexivity).
  assert (EP : bmp280_compensate_P (set_t_fine 128422 ref_state)
                 (bmp280_up (set_t_fine 128422 ref_state))
               = Ok (S754_finite false 12883616 (-7)))
    by (vm_compute; reflexivity).
  split.
  - destruct (calculate_stores_both ref_state _ ∅ 0 1 _ _ 100653 25 2500 ET EP
                eq_refl eq_refl eq_refl) as (m' & Hrun & Hb & Ha & _).
    exists m'. split; [exact Hrun|]. split; [exact Hb|]. apply Ha. discriminate.
  - destruct (calculate_stores_both ref_state _ ∅ 0 0 _ _ 100653 25 2500 ET EP
                eq_refl eq_refl eq_refl) as (m' & Hrun & Hb & _).
    exists m'. split; [exact Hrun|exact Hb].
Defined.

(** ** Conversions *)

Lemma f32_trunc_toward_zero (x : float32) (z : Z) :
  f32_trunc x = Some z ->
  exists q, f32_to_Q x = Some q /\ z = Z.quot (Qnum q) (Zpos (Qden q)).
Proof.
  destruct x as [sg|sg| |sg mnt e]; cbn [f32_trunc f32_to_Q]; try discriminate.
  - intros [= <-]. now exists 0%Q.
  - intros [= <-]. destruct e as [|pe|pe]; eexists; (split; [reflexivity|]).
    + cbn [inject_Z Qnum Qden]. rewrite Z.quot_1_r. cbn [Z.shiftl].
      now rewrite Z.pow_0_r, Z.mul_1_r.
    + cbn [inject_Z Qnum Qden]. rewrite Z.quot_1_r.
      now rewrite Z.shiftl_mul_pow2 by lia.
    + cbn [Qnum Qden]. rewrite Pos2Z.inj_pow.
      rewrite Z.shiftl_div_pow2 by lia.
      change (- Z.neg pe) with (Z.pos pe).
      assert (Hpow : 0 < 2 ^ Z.pos pe) by (apply Z.pow_pos_nonneg; lia).
      destruct sg; cbn [cond_Zopp].
      * rewrite Z.quot_opp_l by lia. f_equal.
        symmetry. apply Z.quot_div_nonneg; lia.
      * symmetry. apply Z.quot_div_nonneg; lia.
Qed.

(** X10. The pressure [bmp280_calculate] stores is the compensated
    pressure rounded toward zero: the quotient, truncated, of the numerator
    and the denominator of the exact value of the float, and an [int32_t]. *)
Theorem calculate_pressure_truncates
    (s s' : state) (m m' : gmap Z Z) (a : Z) :
  bmp280_calculate s m (Some a) None = Ok (s', m') ->
  exists p q,
    bmp280_compensate_P s' (bmp280_up s') = Ok p
    /\ f32_to_Q p = Some q
    /\ m' !! a = Some (Z.quot (Qnum q) (Zpos (Qden q)))
    /\ - 2 ^ 31 <= Z.quot (Qnum q) (Zpos (Qden q)) < 2 ^ 31.
Proof.
  rewrite calculate_unfold.
  destruct (bmp280_compensate_T s (bmp280_ut s)) as [[t s1]|f]; [|discriminate].
  cbn [bind fst snd].
  destruct (bmp280_compensate_P s1 (bmp280_up s1)) as [p|f] eqn:EP; [|discriminate].
  cbn [bind is_null]. unfold int32_of_f32.
  destruct (f32_trunc p) as [z|] eqn:Ez; [|discriminate].
  destruct (in_int32 z) eqn:Hz; [|discriminate].
  cbn [bind store ret]. intros [= <- <-].
  destruct (f32_trunc_toward_zero p z Ez) as (q & Hq & ->).
  exists p, q. split; [exact EP|]. split; [exact Hq|].
  split; [apply lookup_insert_eq|].
  unfold in_int32 in Hz. apply andb_prop in Hz as [H1 H2]. lia.
Qed.

Lemma calculate_pressure_truncates_ref :
  exists p q,
    bmp280_compensate_P (set_t_fine 128422 ref_state) 415148 = Ok p
    /\ f32_to_Q p = Some q
    /\ Z.quot (Qnum q) (Zpos (Qden q)) = 100653.
Proof.
  destruct (calculate_pressure_truncates ref_state (set_t_fine 128422 ref_state)
              ∅ (<[0 := 100653]> ∅) 0)
    as (p & q & Hp & Hq & Hm & _); [vm_compute; reflexivity|].
  exists p, q. split; [exact Hp|]. split; [exact Hq|].
  rewrite lookup_insert_eq in Hm. now injection Hm as <-.
Defined.

(** X11. [bmp280_calculate] can only go wrong in a conversion to
    [int32_t] that is out of range or, with a temperature pointer, in the
    product by 100; it never divides by zero. A conversion out of range does
    happen: with [dig_P1 = 1] and the other coefficients zero the pressure
    of the raw sample 0 does not fit an [int32_t]. *)
Theorem calculate_fault_kinds
    (s : state) (m : gmap Z Z) (pressure temperature : ptr) (f : fault) :
  bmp280_calculate s m pressure temperature = Fault f ->
  f = CastOutOfRange \/ (f = SignedOverflow /\ is_null temperature = false).
Proof.
  rewrite calculate_unfold.
  destruct (compensate_T_cases s (bmp280_ut s)) as (sum & _ & ->).
  unfold int32_of_f32 at 1.
  destruct (f32_trunc sum) as [z|]; [destruct (in_int32 z)|];
    cbn [bind ret fst snd]; try (intros [= <-]; now left).
  destruct (compensate_P_cases (set_t_fine z s) (bmp280_up (set_t_fine z s)))
    as (_ & _ & _ & p & ->).
  cbn [bind].
  destruct pressure as [a|], temperature as [b|];
    cbn [is_null]; unfold int32_of_f32, mul_int32, store, bind, ret;
    repeat first
      [ discriminate
      | intros [= <-]; (now left) || (now right)
      | match goal with
        | |- context [f32_trunc ?x] => destruct (f32_trunc x)
        | |- context [in_int32 ?x] => destruct (in_int32 x)
        end ].
Qed.

Lemma calculate_fault_kinds_unit_P1 :
  bmp280_calculate unit_P1_state ∅ (Some 0) None = Fault CastOutOfRange
  /\ (CastOutOfRange = CastOutOfRange
      \/ (CastOutOfRange = SignedOverflow /\ is_null None = false)).
Proof.
  assert (E : bmp280_calculate unit_P1_state ∅ (Some 0) None = Fault CastOutOfRange)
    by (vm_compute; reflexivity).
  split; [exact E|].
  exact (calculate_fault_kinds unit_P1_state ∅ (Some 0) None CastOutOfRange E).
Defined.

(** ** Integers that a float holds exactly *)

Lemma iter_xO_value (m k : positive) :
  Zpos (Pos.iter xO m k) = Zpos m * 2 ^ Zpos k.
Proof.
  induction k as [|k IH] using Pos.peano_ind.
  - cbn [Pos.iter]. lia.
  - rewrite Pos.iter_succ, Pos2Z.inj_succ, Z.pow_succ_r by lia.
    change (Zpos (Pos.iter xO m k)~0) with (2 * Zpos (Pos.iter xO m k)). lia.
Qed.

Lemma iter_xO_digits (m k : positive) :
  digits2_pos (Pos.iter xO m k) = (digits2_pos m + k)%positive.
Proof.
  induction k as [|k IH] using Pos.peano_ind.
  - cbn [Pos.iter digits2_pos]. lia.
  - rewrite Pos.iter_succ. cbn [digits2_pos]. rewrite IH. lia.
Qed.

Lemma digits2_pos_lower (m : positive) :
  2 ^ (Zpos (digits2_pos m) - 1) <= Zpos m.
Proof.
  induction m as [m IH|m IH|]; cbn [digits2_pos].
  - rewrite Pos2Z.inj_succ.
    replace (Z.succ (Zpos (digits2_pos m)) - 1) with (Z.succ (Zpos (digits2_pos m) - 1)) by lia.
    rewrite Z.pow_succ_r by lia. lia.
  - rewrite Pos2Z.inj_succ.
    replace (Z.succ (Zpos (digits2_pos m)) - 1) with (Z.succ (Zpos (digits2_pos m) - 1)) by lia.
    rewrite Z.pow_succ_r by lia. lia.
  - reflexivity.
Qed.

Lemma digits2_pos_le (m : positive) (n : Z) :
  Zpos m < 2 ^ n -> Zpos (digits2_pos m) <= n.
Proof.
  intros H. pose proof (digits2_pos_lower m) as Hl.
  destruct (Z.le_gt_cases (Zpos (digits2_pos m)) n) as [Hle|Hgt]; [exact Hle|].
  assert (2 ^ n <= 2 ^ (Zpos (digits2_pos m) - 1)).
  { destruct (Z.lt_ge_cases n 0) as [Hn|Hn].
    - rewrite (Z.pow_neg_r 2 n) by lia. apply Z.pow_nonneg. lia.
    - apply Z.pow_le_mono_r; lia. }
  lia.
Qed.

Lemma binary_round_aux_exact (sx : bool) (mz : positive) (ez : Z) :
  Zpos (digits2_pos mz) = 24 -> -149 <= ez <= 104 ->
  binary_round_aux 24 128 sx (Zpos mz) ez loc_Exact = S754_finite sx mz ez.
Proof.
  intros Hd He.
  assert (Hshr : shr_fexp 24 128 (Zpos mz) ez loc_Exact
                 = ({| shr_m := Zpos mz; shr_r := false; shr_s := false |}, ez)).
  { unfold shr_fexp. cbn [Zdigits2 shr_record_of_loc]. rewrite Hd.
    replace (fexp 24 128 (24 + ez) - ez) with 0; [reflexivity|].
    unfold fexp, emin. lia. }
  unfold binary_round_aux. rewrite Hshr.
  cbn [shr_m loc_of_shr_record round_nearest_even]. rewrite Hshr. cbn [shr_m].
  destruct (Z.leb_spec ez (128 - 24)); [reflexivity|lia].
Qed.

Lemma binary_round_small (sx : bool) (m : positive) :
  Zpos m < 2 ^ 24 ->
  exists mz ez,
    binary_round 24 128 sx m 0 = S754_finite sx mz ez
    /\ -23 <= ez <= 0 /\ Zpos mz = Zpos m * 2 ^ (- ez).
Proof.
  intros Hm. pose proof (digits2_pos_le m 24 Hm) as Hd.
  assert (Hd1 : 1 <= Zpos (digits2_pos m)) by lia.
  unfold binary_round.
  replace (fexp 24 128 (Zpos (digits2_pos m) + 0)) with (Zpos (digits2_pos m) - 24)
    by (unfold fexp, emin; lia).
  unfold shl_align.
  destruct (Zpos (digits2_pos m) - 24 - 0) as [|k|k] eqn:Ek; [|lia|].
  - exists m, 0. rewrite binary_round_aux_exact by lia.
    split; [reflexivity|]. split; [lia|]. cbn. lia.
  - exists (Pos.iter xO m k), (Zpos (digits2_pos m) - 24).
    rewrite binary_round_aux_exact.
    + split; [reflexivity|]. split; [lia|].
      rewrite iter_xO_value. f_equal. f_equal. lia.
    + rewrite iter_xO_digits, Pos2Z.inj_add. lia.
    + lia.
Qed.

Lemma f32_of_Z_small (z : Z) :
  z <> 0 -> Z.abs z < 2 ^ 24 ->
  exists mz ez,
    f32_of_Z z = S754_finite (z <? 0) mz ez
    /\ -23 <= ez <= 0 /\ Zpos mz = Z.abs z * 2 ^ (- ez).
Proof.
  intros Hz Hlt. destruct z as [|m|m]; [contradiction| |].
  - exact (binary_round_small false m Hlt).
  - exact (binary_round_small true m Hlt).
Qed.

Lemma f32_of_Z_exact (z : Z) :
  Z.abs z < 2 ^ 24 ->
  int32_of_f32 (f32_of_Z z) = Ok z
  /\ exists q, f32_to_Q (f32_of_Z z) = Some q /\ (q == inject_Z z)%Q.
Proof.
  intros Hlt. destruct (Z.eq_dec z 0) as [->|Hz].
  { split; [reflexivity|]. exists 0%Q. split; reflexivity. }
  destruct (f32_of_Z_small z Hz Hlt) as (mz & ez & -> & He & Hmz).
  assert (Hpow : 0 < 2 ^ (- ez)) by (apply Z.pow_pos_nonneg; lia).
  assert (Hsign : cond_Zopp (z <? 0) (Z.abs z) = z).
  { destruct (Z.ltb_spec z 0); cbn [cond_Zopp]; lia. }
  split.
  - unfold int32_of_f32. cbn [f32_trunc].
    rewrite Z.shiftl_div_pow2, Hmz, Z.div_mul, Hsign by lia.
    assert (Hin : in_int32 z = true).
    { unfold in_int32. apply andb_true_intro.
      change (2 ^ 24) with 16777216 in Hlt.
      split; [apply Z.leb_le|apply Z.ltb_lt]; change (2 ^ 31) with 2147483648; lia. }
    now rewrite Hin.
  - cbn [f32_to_Q]. destruct ez as [|pe|pe]; [| lia |].
    + eexists. split; [reflexivity|].
      rewrite Z.pow_0_r, Z.mul_1_r.
      change (- 0) with 0 in Hmz. rewrite Z.pow_0_r, Z.mul_1_r in Hmz.
      now rewrite Hmz, Hsign.
    + eexists. split; [reflexivity|].
      unfold Qeq. cbn [Qnum Qden inject_Z].
      rewrite Pos2Z.inj_pow, Z.mul_1_r.
      change (- Z.neg pe) with (Z.pos pe) in Hmz. rewrite Hmz.
      destruct (Z.ltb_spec z 0); cbn [cond_Zopp]; lia.
Qed.

(** X12. Conversions to float lose nothing on what the driver holds: an
    integer below 2^24 in magnitude becomes a float of exactly that value
    and converts back to itself, and that covers both raw samples of every
    frame [bmp280_get_up] decodes and all twelve coefficients of every
    calibration block [bmp280Detect] loads. *)
Theorem raw_and_calibration_convert_exactly :
  (forall z, Z.abs z < 2 ^ 24 ->
     int32_of_f32 (f32_of_Z z) = Ok z
     /\ exists q, f32_to_Q (f32_of_Z z) = Some q /\ (q == inject_Z z)%Q)
  /\ (forall device s,
        let s' := bmp280_get_up device s in
        (exists q, f32_to_Q (f32_of_Z (bmp280_up s')) = Some q
                   /\ (q == inject_Z (bmp280_up s'))%Q)
        /\ (exists q, f32_to_Q (f32_of_Z (bmp280_ut s')) = Some q
                      /\ (q == inject_Z (bmp280_ut s'))%Q))
  /\ (forall d c i, (i < 12)%nat ->
        let z := nth i (calib_fields (load_calib d c)) 0 in
        exists q, f32_to_Q (f32_of_Z z) = Some q /\ (q == inject_Z z)%Q).
Proof.
  split; [exact f32_of_Z_exact|]. split.
  - intros device s s'. subst s'.
    unfold bmp280_get_up, i2cRead, BMP280_DATA_FRAME_SIZE.
    cbn [seq map nth set_raw log_event bmp280_up bmp280_ut bus_log].
    split; apply f32_of_Z_exact;
      match goal with
      | |- Z.abs (raw20 ?a ?b ?c) < _ =>
          destruct (raw20_plain a b c) as [_ H]; change (2 ^ 24) with 16777216; lia
      end.
  - intros d c i Hi z. subst z. apply f32_of_Z_exact.
    pose proof (load_calib_in_range d c) as Hr.
    unfold calib_in_range, is_uint16, is_int16 in Hr.
    destruct Hr as (H1 & H2 & H3 & H4 & H5 & H6 & H7 & H8 & H9 & H10 & H11 & H12).
    unfold calib_fields. change (2 ^ 24) with 16777216.
    do 12 (destruct i as [|i]; [cbn [nth]; lia|]). lia.
Qed.

Lemma raw_and_calibration_convert_exactly_ref :
  int32_of_f32 (f32_of_Z 519888) = Ok 519888
  /\ int32_of_f32 (f32_of_Z (-10685)) = Ok (-10685).
Proof.
  destruct raw_and_calibration_convert_exactly as (Hexact & _).
  split; apply Hexact; vm_compute; reflexivity.
Defined.

(** ** Calculation and the rest of the driver *)

Lemma compensate_P_same_cal (s s' : state) (adc_P : Z) :
  bmp280_cal s = bmp280_cal s' ->
  bmp280_compensate_P s adc_P = bmp280_compensate_P s' adc_P.
Proof. intros H. unfold bmp280_compensate_P. now rewrite H. Qed.

Lemma calculate_ignores_t_fine
    (s : state) (m : gmap Z Z) (pressure temperature : ptr) (stale : Z) :
  bmp280_calculate (set_t_fine stale s) m pressure temperature
  = bmp280_calculate s m pressure temperature.
Proof.
  rewrite !calculate_unfold.
  change (bmp280_ut (set_t_fine stale s)) with (bmp280_ut s).
  now rewrite compensate_T_ignores_t_fine.
Qed.

(** X13. Re-arming does not disturb a calculation: [bmp280_calculate]
    after [bmp280_start_up] stores what it stores without it and goes wrong
    when it goes wrong without it; the only difference is the control write
    in the log. The raw samples of the last [bmp280_get_up] stay in use
    until the next one. *)
Theorem start_up_commutes_with_calculate
    (s : state) (m : gmap Z Z) (pressure temperature : ptr) :
  bmp280_calculate (bmp280_start_up s) m pressure temperature
  = (r <- bmp280_calculate s m pressure temperature;;
     ret (bmp280_start_up (fst r), snd r)).
Proof.
  rewrite !calculate_unfold.
  destruct (compensate_T_cases s (bmp280_ut s)) as (sum & Hsum & ->).
  destruct (compensate_T_cases (bmp280_start_up s) (bmp280_ut (bmp280_start_up s)))
    as (sum' & Hsum' & ->).
  change (bmp280_cal (bmp280_start_up s)) with (bmp280_cal s) in Hsum'.
  change (bmp280_ut (bmp280_start_up s)) with (bmp280_ut s) in Hsum'.
  rewrite Hsum in Hsum'. injection Hsum' as <-.
  destruct (int32_of_f32 sum) as [fine|f]; [|reflexivity].
  cbn [bind ret fst snd].
  rewrite (compensate_P_same_cal (set_t_fine fine (bmp280_start_up s))
             (set_t_fine fine s)) by reflexivity.
  change (bmp280_up (set_t_fine fine (bmp280_start_up s)))
    with (bmp280_up (set_t_fine fine s)).
  destruct (bmp280_compensate_P (set_t_fine fine s) (bmp280_up (set_t_fine fine s)))
    as [p|f]; [|reflexivity].
  cbn [bind].
  destruct (if is_null pressure then _ else _) as [m1|f]; [|reflexivity].
  cbn [bind].
  destruct (if is_null temperature then _ else _) as [m2|f]; reflexivity.
Qed.

(** X14. [bmp280_calculate] caches nothing and is idempotent: called again
    on the state and the memory it has left, with the same pointers, it
    returns the same state and the same memory. *)
Theorem calculate_idempotent
    (s s' : state) (m m' : gmap Z Z) (pressure temperature : ptr) :
  bmp280_calculate s m pressure temperature = Ok (s', m') ->
  bmp280_calculate s' m' pressure temperature = Ok (s', m').
Proof.
  intros Hrun.
  destruct (calculate_final_state _ _ _ _ _ _ Hrun) as (fine & ->).
  rewrite calculate_ignores_t_fine.
  revert Hrun. rewrite !calculate_unfold.
  destruct (bmp280_compensate_T s (bmp280_ut s)) as [[t s1]|f]; [|discriminate].
  cbn [bind fst snd].
  destruct (bmp280_compensate_P s1 (bmp280_up s1)) as [p|f]; [|discriminate].
  cbn [bind].
  destruct pressure as [a|], temperature as [b|]; cbn [is_null bind ret store].
  - destruct (int32_of_f32 p) as [pv|f]; [|discriminate]. cbn [bind store].
    destruct (int32_of_f32 t) as [ti|f]; [|discriminate]. cbn [bind].
    destruct (mul_int32 ti 100) as [v|f]; [|discriminate]. cbn [bind store].
    intros [= <- <-]. do 2 f_equal.
    apply map_eq. intros i. rewrite !lookup_insert.
    repeat case_decide; congruence.
  - destruct (int32_of_f32 p) as [pv|f]; [|discriminate]. cbn [bind store].
    intros [= <- <-]. now rewrite insert_insert_eq.
  - destruct (int32_of_f32 t) as [ti|f]; [|discriminate]. cbn [bind].
    destruct (mul_int32 ti 100) as [v|f]; [|discriminate]. cbn [bind store].
    intros [= <- <-]. now rewrite insert_insert_eq.
  - intros [= <- <-]. reflexivity.
Qed.

Lemma calculate_idempotent_ref :
  bmp280_calculate (set_t_fine 128422 ref_state)
    (<[1 := 2500]> (<[0 := 100653]> ∅)) (Some 0) (Some 1)
  = Ok (set_t_fine 128422 ref_state, <[1 := 2500]> (<[0 := 100653]> ∅)).
Proof.
  apply (calculate_idempotent ref_state _ ∅). vm_compute. reflexivity.
Defined.
